(** * Announcements router of the High School Management System API

    A shallow embedding of [src/backend/routers/announcements.py]: the five
    request handlers ([get_announcements], [get_announcement],
    [create_announcement], [update_announcement], [delete_announcement]) and
    [serialize_announcement], over an explicit model of the two document
    collections they talk to.

    Documents are Python dicts with string keys, modelled as
    [gmap string value]; a collection is the list of its documents in
    natural (insertion) order; handlers are computations in a small state
    and exception monad over the pair of collections. The clock reading
    and the identifier generated for an insertion are arguments of the
    handlers that use them.

    The library functions the handlers call are modelled by what they do on
    the handlers' inputs: [bson.ObjectId] on strings (24 hexadecimal
    characters), [datetime.strptime] and [strftime] with the format
    [%Y-%m-%d], [isoformat], [str.strip], and the collection methods
    [find], [sort], [find_one], [insert_one], [update_one] with [$set] and
    [delete_one]. Strings are sequences of ASCII characters. *)

From stdpp Require Import gmap strings list sorting.
From Stdlib.Strings Require Import Ascii Byte.

Set Warnings "-register-all".
Local Open Scope string_scope.
Local Open Scope list_scope.

(** ** Identifiers: [bson.ObjectId] *)

#[global] Instance byte_eq_decision : EqDecision byte := byte_eq_dec.

(** An [ObjectId] is twelve bytes. *)
Record ObjectId := mkObjectId {
  binary : list byte;
  binary_length : length binary = 12%nat
}.

#[global] Instance ObjectId_eq_dec : EqDecision ObjectId.
Proof.
  intros a b. destruct (decide (binary a = binary b)) as [H|H].
  - left. destruct a as [x Hx], b as [y Hy]. simpl in H. destruct H.
    f_equal. apply proof_irrel.
  - right. intros ->. done.
Defined.

Definition hex_digit (n : N) : ascii :=
  if (n <? 10)%N then ascii_of_N (48 + n) else ascii_of_N (87 + n).

(** Value of one hexadecimal character, either case, as [bytes.fromhex]
    reads it. *)
Definition hex_value (c : ascii) : option N :=
  let n := N_of_ascii c in
  if ((48 <=? n) && (n <=? 57))%N then Some (n - 48)%N
  else if ((97 <=? n) && (n <=? 102))%N then Some (n - 87)%N
  else if ((65 <=? n) && (n <=? 70))%N then Some (n - 55)%N
  else None.

Definition hex_of_byte (b : byte) (rest : string) : string :=
  let n := Byte.to_N b in
  String (hex_digit (n / 16)) (String (hex_digit (n mod 16)) rest).

(** [binascii.hexlify]: two lower-case hexadecimal characters per byte. *)
Fixpoint hexlify (bs : list byte) : string :=
  match bs with
  | [] => ""
  | b :: bs => hex_of_byte b (hexlify bs)
  end.

(** Hexadecimal pairs to bytes; any other character, or an odd length, is a
    [ValueError] ([None]). *)
Fixpoint fromhex (s : string) : option (list byte) :=
  match s with
  | "" => Some []
  | String a (String b rest) =>
      match hex_value a, hex_value b with
      | Some hi, Some lo =>
          match Byte.of_N (16 * hi + lo), fromhex rest with
          | Some x, Some bs => Some (x :: bs)
          | _, _ => None
          end
      | _, _ => None
      end
  | String _ "" => None
  end.

(** [str(oid)]. *)
Definition ObjectId_str (o : ObjectId) : string := hexlify (binary o).

(** [ObjectId(s)] for a [str] argument: [s] must be 24 characters long and
    hexadecimal; [None] stands for the [InvalidId] exception. *)
Definition ObjectId_of_str (s : string) : option ObjectId :=
  if decide (String.length s = 24%nat) then
    match fromhex s with
    | Some bs =>
        match decide (length bs = 12%nat) with
        | left H => Some (mkObjectId bs H)
        | right _ => None
        end
    | None => None
    end
  else None.

(** ** Values and documents *)

(** The field values the router reads and writes: [None], strings and
    object identifiers. *)
Inductive value :=
  | VNull
  | VStr (s : string)
  | VOid (o : ObjectId).

#[global] Instance value_eq_dec : EqDecision value.
Proof. solve_decision. Defined.

(** Python's [str(v)]. *)
Definition py_str (v : value) : string :=
  match v with
  | VNull => "None"
  | VStr s => s
  | VOid o => ObjectId_str o
  end.

(** A document: a dict from field names to values. *)
Abbreviation doc := (gmap string value).

(** Optional string argument ([Optional[str] = None]) as a stored value. *)
Definition of_optional (o : option string) : value :=
  match o with
  | Some s => VStr s
  | None => VNull
  end.

(** ** BSON comparison order *)

Definition bytes_string (o : ObjectId) : string :=
  String.string_of_list_byte (binary o).

(** Order of values in a sort: null, then strings (binary comparison), then
    object identifiers (byte-wise comparison). *)
Definition bson_leb (a b : value) : bool :=
  match a, b with
  | VNull, _ => true
  | VStr s, VStr t => String.leb s t
  | VStr _, VOid _ => true
  | VOid o, VOid p => String.leb (bytes_string o) (bytes_string p)
  | _, _ => false
  end.

Definition bson_le (a b : value) : Prop := bson_leb a b.

#[global] Instance bson_le_dec : RelDecision bson_le.
Proof. intros a b. unfold bson_le. apply _. Defined.

(** ** Queries *)

Inductive cond :=
  | CEq (v : value)          (* {field: v} *)
  | CExists (b : bool)       (* {field: {"$exists": b}} *)
  | CGte (s : string)        (* {field: {"$gte": s}} *)
  | CLte (s : string).       (* {field: {"$lte": s}} *)

Inductive query :=
  | QField (name : string) (c : cond)
  | QAnd (qs : list query)   (* a dict of several clauses; {} is QAnd [] *)
  | QOr (qs : list query).   (* {"$or": [...]} *)

(** A condition against the field's value ([None] when the field is absent).
    Equality with null also matches an absent field; the comparison
    operators match only values of the operand's type. *)
Definition cond_matches (c : cond) (fv : option value) : bool :=
  match c with
  | CEq VNull =>
      match fv with
      | None | Some VNull => true
      | Some _ => false
      end
  | CEq v =>
      match fv with
      | Some x => bool_decide (x = v)
      | None => false
      end
  | CExists b =>
      match fv with
      | Some _ => b
      | None => negb b
      end
  | CGte s =>
      match fv with
      | Some (VStr x) => String.leb s x
      | _ => false
      end
  | CLte s =>
      match fv with
      | Some (VStr x) => String.leb x s
      | _ => false
      end
  end.

Fixpoint matches (q : query) (d : doc) : bool :=
  match q with
  | QField name c => cond_matches c (d !! name)
  | QAnd qs => forallb (λ q, matches q d) qs
  | QOr qs => existsb (λ q, matches q d) qs
  end.

(** ** Collections *)

Abbreviation collection := (list doc).

(** [collection.find(q)]: the matching documents in natural order. *)
Definition find (q : query) (c : collection) : list doc :=
  List.filter (matches q) c.

(** [collection.find_one(q)]: the first match, or [None]. *)
Definition find_one (q : query) (c : collection) : option doc :=
  head (find q c).

Definition sort_key (field : string) (d : doc) : value :=
  default VNull (d !! field).

(** Descending order on a field: [a] comes before [b]. *)
Definition desc (field : string) (a b : doc) : Prop :=
  bson_le (sort_key field b) (sort_key field a).

#[global] Instance desc_dec (field : string) : RelDecision (desc field).
Proof. intros a b. unfold desc. apply _. Defined.

(** [cursor.sort(field, -1)]. *)
Definition sort_desc (field : string) (l : list doc) : list doc :=
  merge_sort (desc field) l.

Definition by_id (o : ObjectId) : query := QField "_id" (CEq (VOid o)).

(** [collection.insert_one(d)] for a document without [_id]: the driver adds
    the identifier [new_id] it generated; the unique index on [_id] rejects
    an identifier already present ([None] stands for [DuplicateKeyError]).
    Returns the new collection and [inserted_id]. *)
Definition insert_one (new_id : ObjectId) (d : doc) (c : collection)
  : option (collection * ObjectId) :=
  match find_one (by_id new_id) c with
  | Some _ => None
  | None => Some ((c ++ [<["_id" := VOid new_id]> d])%list, new_id)
  end.

Record UpdateResult := {
  matched_count : nat;
  modified_count : nat
}.

(** [collection.update_one(q, {"$set": fields})]: the first match gets every
    field of [fields] assigned. *)
Fixpoint update_one (q : query) (fields : doc) (c : collection)
  : collection * UpdateResult :=
  match c with
  | [] => ([], {| matched_count := 0; modified_count := 0 |})
  | d :: c' =>
      if matches q d then
        let d' := fields ∪ d in
        (d' :: c',
         {| matched_count := 1;
            modified_count := if decide (d' = d) then 0 else 1 |})
      else
        let '(c'', r) := update_one q fields c' in (d :: c'', r)
  end.

(** [collection.delete_one(q)]: removes the first match; returns the new
    collection and [deleted_count]. *)
Fixpoint delete_one (q : query) (c : collection) : collection * nat :=
  match c with
  | [] => ([], 0%nat)
  | d :: c' =>
      if matches q d then (c', 1%nat)
      else let '(c'', n) := delete_one q c' in (d :: c'', n)
  end.

(** ** Strings: [str.strip] *)

(** Python's white space among the ASCII characters: tab, line feed,
    vertical tab, form feed, carriage return, the four separators 28..31
    and the space. *)
Definition py_isspace (c : ascii) : bool :=
  let n := N_of_ascii c in
  ((9 <=? n) && (n <=? 13) || (28 <=? n) && (n <=? 32))%N.

Fixpoint lstrip (s : string) : string :=
  match s with
  | "" => ""
  | String a r => if py_isspace a then lstrip r else s
  end.

Fixpoint rstrip (s : string) : string :=
  match s with
  | "" => ""
  | String a r =>
      match rstrip r with
      | "" => if py_isspace a then "" else String a ""
      | r' => String a r'
      end
  end.

(** [s.strip()]. *)
Definition strip (s : string) : string := rstrip (lstrip s).

(** Truth value of a string: non-empty. *)
Definition str_truthy (s : string) : bool :=
  match s with
  | "" => false
  | String _ _ => true
  end.

(** Truth value of a dict: non-empty. *)
Definition dict_truthy (d : doc) : bool := bool_decide (d ≠ ∅).

(** Truth value of the result of [find_one]: a non-empty dict. *)
Definition truthy (r : option doc) : bool :=
  match r with
  | Some d => dict_truthy d
  | None => false
  end.

(** ** Dates: [datetime.strptime(s, "%Y-%m-%d")] and the clock *)

Definition digit_value (c : ascii) : option N :=
  let n := N_of_ascii c in
  if ((48 <=? n) && (n <=? 57))%N then Some (n - 48)%N else None.

Definition in_range (lo hi : N) (x : N) : bool := ((lo <=? x) && (x <=? hi))%N.

(** The directive [%Y]: exactly four digits. *)
Definition match_year (s : string) : option (N * string) :=
  match s with
  | String a (String b (String c (String d r))) =>
      match digit_value a, digit_value b, digit_value c, digit_value d with
      | Some x, Some y, Some z, Some w =>
          Some (1000 * x + 100 * y + 10 * z + w, r)%N
      | _, _, _, _ => None
      end
  | _ => None
  end.

(** The directive [%m]: [1[0-2]|0[1-9]|[1-9]], alternatives in order. The
    directive is followed by a literal hyphen, which no digit is, so a later
    alternative never succeeds where an earlier one matched. *)
Definition match_month (s : string) : option (N * string) :=
  match s with
  | String a r =>
      match digit_value a with
      | Some x =>
          let two :=
            match r with
            | String b r' =>
                match digit_value b with
                | Some y =>
                    if ((x =? 1) && in_range 0 2 y || (x =? 0) && in_range 1 9 y)%N
                    then Some (10 * x + y, r')%N else None
                | None => None
                end
            | "" => None
            end in
          match two with
          | Some res => Some res
          | None => if in_range 1 9 x then Some (x, r) else None
          end
      | None => None
      end
  | "" => None
  end.

(** The directive [%d]: [3[0-1]|[1-2]\d|0[1-9]|[1-9]| [1-9]], alternatives
    in order; it ends the pattern, so the first alternative that matches is
    the match. *)
Definition match_day (s : string) : option (N * string) :=
  match s with
  | String a r =>
      let one :=
        match digit_value a with
        | Some x => if in_range 1 9 x then Some (x, r) else None
        | None => None
        end in
      match r with
      | String b r' =>
          match digit_value a, digit_value b with
          | Some x, Some y =>
              if ((x =? 3) && in_range 0 1 y || in_range 1 2 x
                  || (x =? 0) && in_range 1 9 y)%N
              then Some (10 * x + y, r')%N else one
          | Some _, None => one
          | None, Some y =>
              if (N_of_ascii a =? 32)%N && in_range 1 9 y
              then Some (y, r') else None
          | None, None => None
          end
      | "" => one
      end
  | "" => None
  end.

Definition expect_hyphen (s : string) : option string :=
  match s with
  | String a r => if (N_of_ascii a =? 45)%N then Some r else None
  | "" => None
  end.

Definition is_leap (y : N) : bool :=
  ((y mod 4 =? 0) && (negb (y mod 100 =? 0) || (y mod 400 =? 0)))%N.

Definition days_in_month (y m : N) : N :=
  match m with
  | 1 | 3 | 5 | 7 | 8 | 10 | 12 => 31
  | 4 | 6 | 9 | 11 => 30
  | 2 => if is_leap y then 29 else 28
  | _ => 0
  end%N.

(** [datetime.strptime(s, "%Y-%m-%d")]: the three fields of the date, or
    [None] for [ValueError] (no match, unconverted data, or a day or year
    out of range). *)
Definition strptime (s : string) : option (N * N * N) :=
  match match_year s with
  | Some (y, r1) =>
      match expect_hyphen r1 with
      | Some r2 =>
          match match_month r2 with
          | Some (m, r3) =>
              match expect_hyphen r3 with
              | Some r4 =>
                  match match_day r4 with
                  | Some (d, "") =>
                      if ((1 <=? y) && (1 <=? d) && (d <=? days_in_month y m))%N
                      then Some (y, m, d) else None
                  | _ => None
                  end
              | None => None
              end
          | None => None
          end
      | None => None
      end
  | None => None
  end.

(** A reading of the clock, [datetime.now()]. *)
Record datetime := {
  year : N; month : N; day : N;
  hour : N; minute : N; second : N; microsecond : N
}.

Definition digit (n : N) : ascii := ascii_of_N (48 + n mod 10).

Definition pad2 (n : N) (rest : string) : string :=
  String (digit (n / 10)) (String (digit n) rest).

Definition pad4 (n : N) (rest : string) : string :=
  String (digit (n / 1000)) (String (digit (n / 100)) (pad2 n rest)).

Definition pad6 (n : N) (rest : string) : string :=
  String (digit (n / 100000)) (String (digit (n / 10000)) (pad4 n rest)).

(** A date in the form YYYY-MM-DD, zero-padded. *)
Definition date_string (y m d : N) : string :=
  pad4 y (String "-" (pad2 m (String "-" (pad2 d "")))).

(** [now.strftime("%Y-%m-%d")], for a four-digit year. *)
Definition strftime (now : datetime) : string :=
  date_string (year now) (month now) (day now).

(** [now.isoformat()]: date, the letter T, time, and the microseconds when
    they are not zero. *)
Definition isoformat (now : datetime) : string :=
  pad4 (year now) (String "-" (pad2 (month now) (String "-" (pad2 (day now)
    (String "T" (pad2 (hour now) (String ":" (pad2 (minute now) (String ":"
      (pad2 (second now)
         (if (microsecond now =? 0)%N then ""
          else String "." (pad6 (microsecond now) "")))))))))))).

(** ** The database and the handler monad *)

(** Modelled from the spec: the module [..database], which is not part of
    the sources at hand, provides [announcements_collection] and
    [teachers_collection], the announcement store and the teacher
    directory: two collections of documents, each keyed by a unique [_id]. *)
Record Db := {
  announcements_collection : collection;
  teachers_collection : collection
}.

(** The exceptions a handler can end with. *)
Inductive exn :=
  | HTTPException (status_code : N) (detail : string)
  | DuplicateKeyError.

#[global] Instance exn_eq_dec : EqDecision exn.
Proof. solve_decision. Defined.

Inductive outcome (A : Type) :=
  | Return (a : A)
  | Raise (e : exn).
Arguments Return {A} a.
Arguments Raise {A} e.

(** A handler: from the database to its outcome and the database it leaves. *)
Definition M (A : Type) : Type := Db → outcome A * Db.

Definition ret {A} (a : A) : M A := λ db, (Return a, db).

Definition raise {A} (e : exn) : M A := λ db, (Raise e, db).

Definition bind {A B} (m : M A) (k : A → M B) : M B :=
  λ db,
    match m db with
    | (Return a, db') => k a db'
    | (Raise e, db') => (Raise e, db')
    end.

Notation "'let*' x ':=' m 'in' k" := (bind m (λ x, k))
  (at level 10, x pattern, m at level 100, k at level 200).

(** [if c: raise e]. *)
Definition raise_if (c : bool) (e : exn) : M unit :=
  if c then raise e else ret tt.

Definition teachers_find_one (q : query) : M (option doc) :=
  λ db, (Return (find_one q (teachers_collection db)), db).

Definition announcements_find_one (q : query) : M (option doc) :=
  λ db, (Return (find_one q (announcements_collection db)), db).

(** [announcements_collection.find(q).sort(field, -1)]. *)
Definition announcements_find_sorted (q : query) (field : string)
  : M (list doc) :=
  λ db, (Return (sort_desc field (find q (announcements_collection db))), db).

(** [announcements_collection.insert_one(d)]; returns the dict as the driver
    leaves it, with its [_id], and [inserted_id]. *)
Definition announcements_insert_one (new_id : ObjectId) (d : doc)
  : M (doc * ObjectId) :=
  λ db,
    match insert_one new_id d (announcements_collection db) with
    | Some (c, oid) =>
        (Return (<["_id" := VOid oid]> d, oid),
         {| announcements_collection := c;
            teachers_collection := teachers_collection db |})
    | None => (Raise DuplicateKeyError, db)
    end.

(** The write of [update_announcement], over the store operation [upd] that
    carries it out. *)
Definition announcements_update_with
    (upd : query → doc → collection → collection * UpdateResult)
    (q : query) (fields : doc) : M UpdateResult :=
  λ db,
    let '(c, r) := upd q fields (announcements_collection db) in
    (Return r,
     {| announcements_collection := c;
        teachers_collection := teachers_collection db |}).

Definition announcements_delete_one (q : query) : M nat :=
  λ db,
    let '(c, n) := delete_one q (announcements_collection db) in
    (Return n,
     {| announcements_collection := c;
        teachers_collection := teachers_collection db |}).

(** ** The error responses, as the specification names them *)

Definition Unauthorized : exn := HTTPException 401 "Authentication required".
Definition InvalidId : exn := HTTPException 400 "Invalid announcement ID".
Definition NotFound : exn := HTTPException 404 "Announcement not found".
Definition InvalidDate : exn :=
  HTTPException 400 "Invalid date format. Use YYYY-MM-DD".
Definition EmptyMessage : exn := HTTPException 400 "Message cannot be empty".
Definition UpdateFailed : exn :=
  HTTPException 500 "Failed to update announcement".

(** ** The handlers *)

(** [serialize_announcement]: a non-empty dict with an [_id] gets
    [id = str(_id)] and loses [_id]. *)
Definition serialize_announcement (announcement : doc) : doc :=
  match announcement !! "_id" with
  | Some oid =>
      if dict_truthy announcement
      then delete "_id" (<["id" := VStr (py_str oid)]> announcement)
      else announcement
  | None => announcement
  end.

(** The [try] block of the two writers: the expiration date must parse, and
    so must a start date that is given and not empty. *)
Definition dates_parse (expiration_date : string) (start_date : option string)
  : bool :=
  match strptime expiration_date with
  | Some _ =>
      match start_date with
      | Some s => if str_truthy s then bool_decide (is_Some (strptime s)) else true
      | None => true
      end
  | None => false
  end.

(** [GET /announcements]. *)
Definition get_announcements (now : datetime) (active_only : bool)
  : M (list doc) :=
  let query := QAnd [] in
  let query :=
    if active_only then
      let current_date := strftime now in
      QAnd [ QField "expiration_date" (CGte current_date);
             QOr [ QField "start_date" (CExists false);
                   QField "start_date" (CEq VNull);
                   QField "start_date" (CLte current_date) ] ]
    else query in
  let* cursor := announcements_find_sorted query "created_at" in
  ret (foldl (λ announcements announcement,
                (announcements ++ [serialize_announcement announcement])%list)
             [] cursor).

(** [GET /announcements/{announcement_id}]. *)
Definition get_announcement (announcement_id : string) : M doc :=
  let* announcement :=
    match ObjectId_of_str announcement_id with
    | Some oid => announcements_find_one (by_id oid)
    | None => raise InvalidId
    end in
  match announcement with
  | Some d =>
      if dict_truthy d then ret (serialize_announcement d)
      else raise NotFound
  | None => raise NotFound
  end.

(** [POST /announcements]. [now] is the clock reading and [new_id] the
    identifier the driver generates for the insertion. *)
Definition create_announcement (now : datetime) (new_id : ObjectId)
    (message expiration_date : string) (start_date : option string)
    (teacher_username : string) : M doc :=
  let* teacher := teachers_find_one (QField "_id" (CEq (VStr teacher_username))) in
  let* _ := raise_if (negb (truthy teacher)) Unauthorized in
  let* _ := raise_if (negb (dates_parse expiration_date start_date)) InvalidDate in
  let* _ := raise_if (negb (str_truthy message) || negb (str_truthy (strip message)))
                     EmptyMessage in
  let announcement : doc :=
    {[ "message" := VStr (strip message);
       "start_date" := of_optional start_date;
       "expiration_date" := VStr expiration_date;
       "created_by" := VStr teacher_username;
       "created_at" := VStr (isoformat now) ]} in
  let* (announcement, inserted_id) := announcements_insert_one new_id announcement in
  let announcement := <["id" := VStr (ObjectId_str inserted_id)]> announcement in
  let announcement := delete "_id" announcement in
  ret announcement.

(** [PUT /announcements/{announcement_id}], over the store's write [upd].
    The result is [None] when the final [find_one] finds nothing, which
    [serialize_announcement] passes through. *)
Definition update_announcement_with
    (upd : query → doc → collection → collection * UpdateResult)
    (now : datetime) (announcement_id message expiration_date : string)
    (start_date : option string) (teacher_username : string)
  : M (option doc) :=
  let* teacher := teachers_find_one (QField "_id" (CEq (VStr teacher_username))) in
  let* _ := raise_if (negb (truthy teacher)) Unauthorized in
  match ObjectId_of_str announcement_id with
  | None => raise InvalidId
  | Some oid =>
      let* existing := announcements_find_one (by_id oid) in
      let* _ := raise_if (negb (truthy existing)) NotFound in
      let* _ := raise_if (negb (dates_parse expiration_date start_date)) InvalidDate in
      let* _ := raise_if (negb (str_truthy message) || negb (str_truthy (strip message)))
                         EmptyMessage in
      let update_data : doc :=
        {[ "message" := VStr (strip message);
           "start_date" := of_optional start_date;
           "expiration_date" := VStr expiration_date;
           "updated_by" := VStr teacher_username;
           "updated_at" := VStr (isoformat now) ]} in
      let* result := announcements_update_with upd (by_id oid) update_data in
      let* _ := raise_if ((modified_count result =? 0)%nat
                          && (matched_count result =? 0)%nat) UpdateFailed in
      let* updated := announcements_find_one (by_id oid) in
      ret (serialize_announcement <$> updated)
  end.

(** The handler on the collection's own [update_one]. *)
Definition update_announcement := update_announcement_with update_one.

(** [DELETE /announcements/{announcement_id}]. *)
Definition delete_announcement (announcement_id teacher_username : string)
  : M (gmap string string) :=
  let* teacher := teachers_find_one (QField "_id" (CEq (VStr teacher_username))) in
  let* _ := raise_if (negb (truthy teacher)) Unauthorized in
  let* deleted_count :=
    match ObjectId_of_str announcement_id with
    | Some oid => announcements_delete_one (by_id oid)
    | None => raise InvalidId
    end in
  let* _ := raise_if (deleted_count =? 0)%nat NotFound in
  ret {[ "message" := "Announcement deleted successfully" ]}.

(** ** The router, as one function of the request *)

Inductive request :=
  | ListAnnouncements (active_only : bool)
  | GetAnnouncement (announcement_id : string)
  | CreateAnnouncement (message expiration_date : string)
      (start_date : option string) (teacher_username : string)
  | UpdateAnnouncement (announcement_id message expiration_date : string)
      (start_date : option string) (teacher_username : string)
  | DeleteAnnouncement (announcement_id teacher_username : string).

Inductive response :=
  | Announcements (l : list doc)
  | Announcement (d : option doc)
  | Confirmation (d : gmap string string).

(** The routes of [router]. *)
Definition router (now : datetime) (new_id : ObjectId) (req : request)
  : M response :=
  match req with
  | ListAnnouncements active_only =>
      let* l := get_announcements now active_only in ret (Announcements l)
  | GetAnnouncement id =>
      let* d := get_announcement id in ret (Announcement (Some d))
  | CreateAnnouncement message expiration_date start_date teacher_username =>
      let* d := create_announcement now new_id message expiration_date
                  start_date teacher_username in
      ret (Announcement (Some d))
  | UpdateAnnouncement id message expiration_date start_date teacher_username =>
      let* d := update_announcement now id message expiration_date
                  start_date teacher_username in
      ret (Announcement d)
  | DeleteAnnouncement id teacher_username =>
      let* d := delete_announcement id teacher_username in
      ret (Confirmation d)
  end.

(** A run of the service: the requests in order, each with the clock
    reading and the identifier the driver has ready for it. *)
Definition step (db : Db) (r : datetime * ObjectId * request) : Db :=
  (router r.1.1 r.1.2 r.2 db).2.

Definition run (trace : list (datetime * ObjectId * request)) (db : Db) : Db :=
  foldl step db trace.

(** ** Properties named in the specification *)

(** "Syntactically a valid store identifier": 24 hexadecimal characters. *)
Fixpoint all_hex (s : string) : bool :=
  match s with
  | "" => true
  | String a r => bool_decide (is_Some (hex_value a)) && all_hex r
  end.

Definition valid_identifier (s : string) : Prop :=
  String.length s = 24%nat ∧ all_hex s = true.

(** The teacher directory holds an entry keyed by [username]. *)
Definition in_directory (username : string) (db : Db) : Prop :=
  Exists (λ t : doc, t !! "_id" = Some (VStr username)) (teachers_collection db).

(** The collection holds a document whose identifier is [oid]. *)
Definition has_document (oid : ObjectId) (c : collection) : Prop :=
  Exists (λ d : doc, d !! "_id" = Some (VOid oid)) c.

(** No two documents of a collection share an [_id] (the unique index). *)
Definition unique_ids (c : collection) : Prop :=
  NoDup (omap (λ d : doc, d !! "_id") c).

(** The specification's predicate: the announcement [A] is active at the
    date [D]. *)
Definition active (D : string) (A : doc) : Prop :=
  match A !! "expiration_date" with
  | Some (VStr expiration_date) => String.le D expiration_date
  | _ => False
  end ∧
  match A !! "start_date" with
  | None | Some VNull => True
  | Some (VStr start_date) => String.le start_date D
  | Some _ => False
  end.

#[global] Instance active_dec (D : string) (A : doc) : Decision (active D A).
Proof. unfold active. repeat case_match; apply _. Defined.

(** Calendar order: the first date is not after the second. *)
Definition date_le (y1 m1 d1 y2 m2 d2 : N) : Prop :=
  (y1 < y2 ∨ y1 = y2 ∧ (m1 < m2 ∨ m1 = m2 ∧ d1 ≤ d2))%N.


(** Python's white space only. *)
Fixpoint all_space (s : string) : bool :=
  match s with
  | "" => true
  | String a r => py_isspace a && all_space r
  end.

Definition first_char (s : string) : option ascii :=
  match s with
  | "" => None
  | String a _ => Some a
  end.

Fixpoint last_char (s : string) : option ascii :=
  match s with
  | "" => None
  | String a "" => Some a
  | String _ r => last_char r
  end.

(** [t] is [s] without its leading and trailing white space. *)
Definition trimmed (s t : string) : Prop :=
  (∃ l r, s = String.app l (String.app t r) ∧
          all_space l = true ∧ all_space r = true) ∧
  (∀ a, first_char t = Some a → py_isspace a = false) ∧
  (∀ a, last_char t = Some a → py_isspace a = false).


(** The teacher on whose behalf a request writes, if it is a write. *)
Definition writer (req : request) : option string :=
  match req with
  | CreateAnnouncement _ _ _ teacher_username
  | UpdateAnnouncement _ _ _ _ teacher_username
  | DeleteAnnouncement _ teacher_username => Some teacher_username
  | ListAnnouncements _ | GetAnnouncement _ => None
  end.

(** ** A small school, for running the handlers *)

Module Example.
Definition clock : datetime :=
  {| year := 2024; month := 3; day := 7;
     hour := 9; minute := 5; second := 1; microsecond := 42 |}.

Definition oid1 : ObjectId := mkObjectId (replicate 12 Byte.x01) eq_refl.
Definition oid2 : ObjectId := mkObjectId (replicate 12 Byte.xab) eq_refl.

Definition id1 : string := "010101010101010101010101".
Definition id2 : string := "abababababababababababab".

(** One teacher, no announcement. *)
Definition empty_school : Db :=
  {| announcements_collection := [];
     teachers_collection := [ {[ "_id" := VStr "mchen" ]} ] |}.

Definition exam : doc :=
  {[ "_id" := VOid oid1;
     "message" := VStr "Exam Friday";
     "start_date" := VNull;
     "expiration_date" := VStr "2099-01-01";
     "created_by" := VStr "mchen";
     "created_at" := VStr "2024-03-07T09:05:01.000042" ]}.

Definition exam_record : doc :=
  {[ "id" := VStr id1;
     "message" := VStr "Exam Friday";
     "start_date" := VNull;
     "expiration_date" := VStr "2099-01-01";
     "created_by" := VStr "mchen";
     "created_at" := VStr "2024-03-07T09:05:01.000042" ]}.

(** The same school after the exam has been announced. *)
Definition school : Db :=
  {| announcements_collection := [ exam ];
     teachers_collection := [ {[ "_id" := VStr "mchen" ]} ] |}.
Definition trip : doc :=
  {[ "_id" := VOid oid2;
     "message" := VStr "Museum trip";
     "start_date" := VStr "2024-01-10";
     "expiration_date" := VStr "2024-01-31";
     "created_by" := VStr "mchen";
     "created_at" := VStr "2024-01-09T08:00:00" ]}.

Definition oid3 : ObjectId := mkObjectId (replicate 12 Byte.x03) eq_refl.
Definition oid4 : ObjectId := mkObjectId (replicate 12 Byte.x04) eq_refl.

Definition fair : doc :=
  {[ "_id" := VOid oid3;
     "message" := VStr "Science fair";
     "start_date" := VStr "2024-04-01";
     "expiration_date" := VStr "2024-04-30";
     "created_by" := VStr "mchen";
     "created_at" := VStr "2024-03-01T12:00:00" ]}.

Definition notice : doc :=
  {[ "_id" := VOid oid4;
     "message" := VStr "Library closed";
     "start_date" := VStr "2024-03-01";
     "expiration_date" := VStr "2024-03-07";
     "created_by" := VStr "mchen";
     "created_at" := VStr "2024-03-07T10:30:00" ]}.

(** Four announcements: one current without a start date, one expired, one
    not yet started, one in its last day. *)
Definition board : Db :=
  {| announcements_collection := [ exam; trip; fair; notice ];
     teachers_collection := [ {[ "_id" := VStr "mchen" ]} ] |}.
End Example.

(** ** Further notions, for the properties of the handlers *)

(** A response shows no [_id], and a single record carries its identifier
    as the string [id]. *)
Definition hides_native_id (r : response) : Prop :=
  match r with
  | Announcements l => Forall (λ d : doc, d !! "_id" = None) l
  | Announcement (Some d) =>
      d !! "_id" = None ∧ ∃ id, d !! "id" = Some (VStr id)
  | Announcement None | Confirmation _ => True
  end.

(** The dates that the [try] block of the writers rejects: an expiration
    date that does not parse, or a start date that is given, is not empty
    and does not parse. *)
Definition dates_rejected (expiration_date : string)
    (start_date : option string) : Prop :=
  strptime expiration_date = None ∨
  ∃ s, start_date = Some s ∧ s ≠ "" ∧ strptime s = None.

(** Lower-case hexadecimal characters only. *)
Fixpoint lower_hex (s : string) : bool :=
  match s with
  | "" => true
  | String a r =>
      let n := N_of_ascii a in
      (in_range 48 57 n || in_range 97 102 n) && lower_hex r
  end.

(** A date of the calendar, with a four-digit year. *)
Definition valid_date (y m d : N) : Prop :=
  (1 ≤ y ∧ y < 10000 ∧ 1 ≤ m ∧ m ≤ 12 ∧ 1 ≤ d ∧ d ≤ days_in_month y m)%N.

(** The identifiers of a collection, in its order. *)
Definition ids (c : collection) : list (option value) :=
  (λ d : doc, d !! "_id") <$> c.

(** The string is accepted by [strptime], as a date of the calendar. *)
Definition parses_to_date (s : string) : Prop :=
  ∃ y m d, strptime s = Some (y, m, d) ∧ valid_date y m d.

(** The dates of a stored announcement as the writers leave them: an
    expiration date that parses, and a start date that is null, the empty
    string, or parses. *)
Definition dates_ok (d : doc) : Prop :=
  (∃ e, d !! "expiration_date" = Some (VStr e) ∧ parses_to_date e) ∧
  (d !! "start_date" = Some VNull ∨ d !! "start_date" = Some (VStr "") ∨
   ∃ s, d !! "start_date" = Some (VStr s) ∧ parses_to_date s).

(** A date with its month written with one digit, as in 2024-3-07. *)
Definition unpadded_date_string (y m d : N) : string :=
  pad4 y (String "-" (String (digit m) (String "-" (pad2 d "")))).

Module Staff.
(** The school of [Example.school] with a second teacher. *)
Definition staffed_school : Db :=
  {| announcements_collection := [ Example.exam ];
     teachers_collection :=
       [ {[ "_id" := VStr "mchen" ]}; {[ "_id" := VStr "jrivera" ]} ] |}.
End Staff.

(** * Proofs *)

(** ** Identifiers *)

Lemma ObjectId_eq (a b : ObjectId) : binary a = binary b → a = b.
Proof.
  destruct a as [x Hx], b as [y Hy]; simpl; intros ->.
  f_equal. apply proof_irrel.
Qed.

Lemma string_pair_ind (P : string → Prop) :
  P "" →
  (∀ a, P (String a "")) →
  (∀ a b r, P r → P (String a (String b r))) →
  ∀ s, P s.
Proof.
  intros H0 H1 H2.
  refine (fix go s := match s with
                      | "" => H0
                      | String a "" => H1 a
                      | String a (String b r) => H2 a b r (go r)
                      end).
Qed.

Lemma hex_value_digit (n : N) : (n < 16)%N → hex_value (hex_digit n) = Some n.
Proof.
  intros H.
  assert (n ∈ [0; 1; 2; 3; 4; 5; 6; 7; 8; 9; 10; 11; 12; 13; 14; 15]%N) as Hn.
  { rewrite !elem_of_cons. lia. }
  rewrite !elem_of_cons, elem_of_nil in Hn.
  repeat (destruct Hn as [->|Hn]; [reflexivity|]). done.
Qed.

Lemma fromhex_hex_of_byte (b : byte) (r : string) :
  fromhex (hex_of_byte b r) = (b ::.) <$> fromhex r.
Proof.
  pose proof (Byte.to_N_bounded b) as Hb.
  unfold hex_of_byte. cbn [fromhex].
  rewrite !hex_value_digit.
  - rewrite <-N.div_mod by lia. rewrite Byte.of_to_N.
    by destruct (fromhex r).
  - apply N.mod_lt. lia.
  - apply N.Div0.div_lt_upper_bound. lia.
Qed.

Lemma fromhex_hexlify (bs : list byte) : fromhex (hexlify bs) = Some bs.
Proof.
  induction bs as [|b bs IH]; [done|].
  cbn [hexlify]. by rewrite fromhex_hex_of_byte, IH.
Qed.

Lemma length_hexlify (bs : list byte) :
  String.length (hexlify bs) = (2 * length bs)%nat.
Proof. induction bs as [|b bs IH]; simpl; [done|]. rewrite IH. lia. Qed.

(** Parsing the string form of an identifier gives it back. *)
Lemma ObjectId_of_str_str (o : ObjectId) :
  ObjectId_of_str (ObjectId_str o) = Some o.
Proof.
  unfold ObjectId_of_str, ObjectId_str.
  rewrite length_hexlify, fromhex_hexlify.
  pose proof (binary_length o) as Hlen.
  destruct (decide (2 * length (binary o) = 24)%nat); [|lia].
  destruct (decide (length (binary o) = 12%nat)); [|lia].
  f_equal. by apply ObjectId_eq.
Qed.

Lemma hex_value_bound (c : ascii) (n : N) : hex_value c = Some n → (n < 16)%N.
Proof.
  unfold hex_value. intros H.
  repeat (case_match; simplify_eq);
    repeat match goal with
           | H : _ && _ = true |- _ => apply andb_true_iff in H as [??]
           end;
    rewrite ?N.leb_le in *; lia.
Qed.

Lemma fromhex_length (s : string) (bs : list byte) :
  fromhex s = Some bs → String.length s = (2 * length bs)%nat.
Proof.
  revert bs. induction s as [| a | a b r IH] using string_pair_ind;
    intros bs H; simpl in H; simplify_eq; [done|].
  repeat (case_match; simplify_eq). simpl. erewrite IH; [|done]. lia.
Qed.

Lemma fromhex_is_Some (s : string) :
  is_Some (fromhex s) ↔ Nat.Even (String.length s) ∧ all_hex s = true.
Proof.
  induction s as [| a | a b r IH] using string_pair_ind.
  - split; [intros _; split; [by exists 0%nat | done] | by eauto].
  - split; [by intros [? ?] | intros [[k Hk] _]; simpl in Hk; lia].
  - simpl. rewrite !andb_true_iff, !bool_decide_eq_true.
    assert (Nat.Even (S (S (String.length r))) ↔ Nat.Even (String.length r))
      as ->.
    { split; intros [k Hk]; [exists (k - 1)%nat | exists (S k)]; lia. }
    split.
    + intros [bs Hbs]. repeat (case_match; simplify_eq).
      split; [apply IH; eauto | split; [eauto | split; [eauto | apply IH; eauto]]].
    + intros (Hev & [hi Hhi] & [lo Hlo] & Hr).
      rewrite Hhi, Hlo.
      destruct (proj2 IH (conj Hev Hr)) as [bs ->].
      destruct (Byte.of_N (16 * hi + lo)) eqn:Hb; [eauto|].
      apply Byte.of_N_None_iff in Hb.
      apply hex_value_bound in Hhi, Hlo. lia.
Qed.

(** [ObjectId(s)] succeeds exactly on the 24-character hexadecimal strings. *)
Lemma ObjectId_of_str_is_Some (s : string) :
  is_Some (ObjectId_of_str s) ↔ valid_identifier s.
Proof.
  unfold ObjectId_of_str, valid_identifier.
  destruct (decide (String.length s = 24%nat)) as [Hlen|Hlen];
    [|split; [by intros [? ?] | by intros [? _]]].
  split.
  - intros [o Ho]. split; [done|].
    destruct (fromhex s) as [bs|] eqn:Hbs; [|done].
    apply (fromhex_is_Some s). eauto.
  - intros [_ Hhex].
    destruct (proj2 (fromhex_is_Some s)) as [bs Hbs].
    { split; [|done]. rewrite Hlen. by exists 12%nat. }
    rewrite Hbs. pose proof (fromhex_length _ _ Hbs) as Hl.
    destruct (decide (length bs = 12%nat)); [eauto | lia].
Qed.

Lemma ObjectId_of_str_None (s : string) :
  ObjectId_of_str s = None ↔ ¬ valid_identifier s.
Proof.
  rewrite <-ObjectId_of_str_is_Some, <-eq_None_not_Some. done.
Qed.

(** ** The sort order *)






Lemma sort_desc_perm (field : string) (l : list doc) :
  sort_desc field l ≡ₚ l.
Proof. unfold sort_desc. apply merge_sort_Permutation. Qed.

(** ** Queries on a collection *)

Lemma matches_by_id (o : ObjectId) (d : doc) :
  matches (by_id o) d = true ↔ d !! "_id" = Some (VOid o).
Proof.
  simpl. destruct (d !! "_id") as [v|]; simpl; [|done].
  rewrite bool_decide_eq_true. split; congruence.
Qed.

Lemma matches_username (u : string) (d : doc) :
  matches (QField "_id" (CEq (VStr u))) d = true ↔ d !! "_id" = Some (VStr u).
Proof.
  simpl. destruct (d !! "_id") as [v|]; simpl; [|done].
  rewrite bool_decide_eq_true. split; congruence.
Qed.

Lemma find_one_Some (q : query) (c : collection) (d : doc) :
  find_one q c = Some d ↔
  ∃ pre post, c = pre ++ d :: post ∧ matches q d = true ∧
              Forall (λ x, matches q x = false) pre.
Proof.
  unfold find_one, find. induction c as [|x c IH]; simpl.
  - split; [done|]. intros (pre & post & H & _). by destruct pre.
  - destruct (matches q x) eqn:Hx; simpl.
    + split.
      * intros [= ->]. by exists [], c.
      * intros (pre & post & H & Hd & Hpre).
        destruct pre as [|y pre]; simplify_eq/=; [done|].
        apply Forall_cons in Hpre as [? _]. congruence.
    + rewrite IH. split.
      * intros (pre & post & -> & Hd & Hpre).
        exists (x :: pre), post. by repeat constructor.
      * intros (pre & post & H & Hd & Hpre).
        destruct pre as [|y pre]; simplify_eq/=; [congruence|].
        apply Forall_cons in Hpre as [_ ?]. eauto.
Qed.

Lemma find_one_None (q : query) (c : collection) :
  find_one q c = None ↔ Forall (λ x, matches q x = false) c.
Proof.
  unfold find_one, find. induction c as [|x c IH]; simpl.
  - split; [constructor | done].
  - destruct (matches q x) eqn:Hx; simpl.
    + split; [done|]. intros [? _]%Forall_cons. congruence.
    + rewrite IH. split; [by constructor | by intros [_ ?]%Forall_cons].
Qed.

Lemma find_one_matches (q : query) (c : collection) (d : doc) :
  find_one q c = Some d → matches q d = true ∧ d ∈ c.
Proof.
  intros (pre & post & -> & Hd & _)%find_one_Some.
  split; [done|]. apply elem_of_app. right. by left.
Qed.

Lemma find_one_app_r (q : query) (c : collection) (d : doc) :
  find_one q c = None → matches q d = true → find_one q (c ++ [d]) = Some d.
Proof.
  intros Hc%find_one_None Hd. apply find_one_Some. by exists c, [].
Qed.

Lemma has_document_find_one (o : ObjectId) (c : collection) :
  has_document o c ↔ is_Some (find_one (by_id o) c).
Proof.
  unfold has_document. rewrite Exists_exists. split.
  - intros (d & Hin & Hd). destruct (find_one (by_id o) c) eqn:H; [eauto|].
    rewrite find_one_None, Forall_forall in H.
    apply matches_by_id in Hd. rewrite (H d Hin) in Hd. done.
  - intros [d (Hm & Hin)%find_one_matches]. exists d.
    by rewrite <-matches_by_id.
Qed.

Lemma in_directory_find_one (u : string) (db : Db) :
  in_directory u db ↔
  is_Some (find_one (QField "_id" (CEq (VStr u))) (teachers_collection db)).
Proof.
  unfold in_directory. rewrite Exists_exists. split.
  - intros (d & Hin & Hd).
    destruct (find_one _ (teachers_collection db)) eqn:H; [eauto|].
    rewrite find_one_None, Forall_forall in H.
    apply matches_username in Hd. rewrite (H d Hin) in Hd. done.
  - intros [d (Hm & Hin)%find_one_matches]. exists d.
    by rewrite <-matches_username.
Qed.

(** A document found by its [_id] is a non-empty dict. *)
Lemma lookup_truthy (d : doc) (k : string) (v : value) :
  d !! k = Some v → dict_truthy d = true.
Proof.
  intros H. unfold dict_truthy. apply bool_decide_eq_true.
  intros ->. by rewrite lookup_empty in H.
Qed.

Lemma truthy_find_by_id (o : ObjectId) (c : collection) :
  truthy (find_one (by_id o) c) = bool_decide (has_document o c).
Proof.
  destruct (find_one (by_id o) c) as [d|] eqn:H; simpl.
  - apply find_one_matches in H as H'. destruct H' as [Hm%matches_by_id _].
    rewrite (lookup_truthy _ _ _ Hm). symmetry. apply bool_decide_eq_true.
    apply has_document_find_one. rewrite H. eauto.
  - symmetry. apply bool_decide_eq_false.
    rewrite has_document_find_one, H. by intros [? ?].
Qed.

Lemma truthy_find_teacher (u : string) (db : Db) :
  truthy (find_one (QField "_id" (CEq (VStr u))) (teachers_collection db))
  = bool_decide (in_directory u db).
Proof.
  destruct (find_one _ (teachers_collection db)) as [d|] eqn:H; simpl.
  - apply find_one_matches in H as H'. destruct H' as [Hm%matches_username _].
    rewrite (lookup_truthy _ _ _ Hm). symmetry. apply bool_decide_eq_true.
    apply in_directory_find_one. rewrite H. eauto.
  - symmetry. apply bool_decide_eq_false.
    rewrite in_directory_find_one, H. by intros [? ?].
Qed.

Lemma update_one_found (q : query) (fields : doc) (pre post : collection)
    (d : doc) :
  Forall (λ x, matches q x = false) pre → matches q d = true →
  update_one q fields (pre ++ d :: post)
  = (pre ++ (fields ∪ d) :: post,
     {| matched_count := 1;
        modified_count := if decide (fields ∪ d = d) then 0 else 1 |}).
Proof.
  intros Hpre Hd. induction Hpre as [|x pre Hx _ IH]; simpl.
  - by rewrite Hd.
  - by rewrite Hx, IH.
Qed.

Lemma update_one_not_found (q : query) (fields : doc) (c : collection) :
  find_one q c = None →
  update_one q fields c = (c, {| matched_count := 0; modified_count := 0 |}).
Proof.
  rewrite find_one_None. induction 1 as [|x c Hx _ IH]; simpl; [done|].
  by rewrite Hx, IH.
Qed.

Lemma delete_one_found (q : query) (pre post : collection) (d : doc) :
  Forall (λ x, matches q x = false) pre → matches q d = true →
  delete_one q (pre ++ d :: post) = (pre ++ post, 1%nat).
Proof.
  intros Hpre Hd. induction Hpre as [|x pre Hx _ IH]; simpl.
  - by rewrite Hd.
  - by rewrite Hx, IH.
Qed.

Lemma delete_one_not_found (q : query) (c : collection) :
  find_one q c = None → delete_one q c = (c, 0%nat).
Proof.
  rewrite find_one_None. induction 1 as [|x c Hx _ IH]; simpl; [done|].
  by rewrite Hx, IH.
Qed.

(** With unique identifiers, nothing after the first match has its [_id]. *)
Lemma unique_ids_rest (o : ObjectId) (pre post : collection) (d : doc) :
  unique_ids (pre ++ d :: post) → d !! "_id" = Some (VOid o) →
  Forall (λ x, matches (by_id o) x = false) post.
Proof.
  unfold unique_ids. rewrite omap_app. intros [_ [_ H]]%NoDup_app Hd.
  simpl in H. rewrite Hd in H. apply NoDup_cons in H as [Hnin _].
  apply Forall_forall. intros x Hx.
  destruct (matches (by_id o) x) eqn:Hm; [|done].
  apply matches_by_id in Hm. destruct Hnin.
  apply list_elem_of_omap. eauto.
Qed.

(** ** Trimming *)

Lemma lstrip_head (s : string) :
  lstrip s = "" ∨ ∃ a r, lstrip s = String a r ∧ py_isspace a = false.
Proof.
  induction s as [|a s IH]; simpl; [by left|].
  destruct (py_isspace a) eqn:Ha; [done|]. right. eauto.
Qed.

Lemma rstrip_unfold (a : ascii) (s : string) :
  rstrip (String a s)
  = match rstrip s with
    | "" => if py_isspace a then "" else String a ""
    | r' => String a r'
    end.
Proof. done. Qed.


Lemma rstrip_cons (a : ascii) (s : string) :
  py_isspace a = false → rstrip (String a s) = String a (rstrip s).
Proof. intros Ha. rewrite rstrip_unfold, Ha. by destruct (rstrip s). Qed.


Lemma lstrip_decompose (s : string) :
  ∃ l, s = String.app l (lstrip s) ∧ all_space l = true.
Proof.
  induction s as [|a s (l & Hl & Hsp)]; [by exists ""|].
  simpl. destruct (py_isspace a) eqn:Ha.
  - exists (String a l). split; [|by simpl; rewrite Ha].
    change (String a s = String a (String.app l (lstrip s))). by f_equal.
  - by exists "".
Qed.

Lemma rstrip_decompose (s : string) :
  ∃ r, s = String.app (rstrip s) r ∧ all_space r = true.
Proof.
  induction s as [|a s (r & Hr & Hsp)]; [by exists ""|].
  rewrite rstrip_unfold. destruct (rstrip s) as [|b r'] eqn:Hs.
  - change (String.app "" r) with r in Hr. subst r.
    destruct (py_isspace a) eqn:Ha.
    + exists (String a s). split; [done|]. by simpl; rewrite Ha.
    + by exists s.
  - exists r. split; [|done].
    change (String a s = String a (String.app (String b r') r)). by f_equal.
Qed.

Lemma rstrip_last (s : string) (a : ascii) :
  last_char (rstrip s) = Some a → py_isspace a = false.
Proof.
  induction s as [|b s IH]; [done|].
  rewrite rstrip_unfold. destruct (rstrip s) as [|c r'] eqn:Hs.
  - destruct (py_isspace b) eqn:Hb; [done|]. by intros [= <-].
  - apply IH.
Qed.

(** [strip] trims. *)
Lemma strip_trimmed (s : string) : trimmed s (strip s).
Proof.
  unfold trimmed, strip. split; [|split].
  - destruct (lstrip_decompose s) as (l & Hl & Hlsp).
    destruct (rstrip_decompose (lstrip s)) as (r & Hr & Hrsp).
    exists l, r. split; [|done]. by rewrite <-Hr.
  - intros a. destruct (lstrip_head s) as [->|(b & r & -> & Hb)]; [done|].
    rewrite rstrip_cons by done. by intros [= <-].
  - apply rstrip_last.
Qed.

(** A message that passes the emptiness test has a non-empty trimmed form. *)
Lemma message_test (message : string) :
  negb (str_truthy message) || negb (str_truthy (strip message)) = false ↔
  strip message ≠ "".
Proof.
  destruct message as [|a r]; [by split|].
  simpl negb. rewrite orb_false_l, negb_false_iff.
  by destruct (strip (String a r)).
Qed.

Lemma message_test_true (message : string) :
  negb (str_truthy message) || negb (str_truthy (strip message)) = true ↔
  strip message = "".
Proof.
  destruct message as [|a r]; [by split|].
  simpl negb. rewrite orb_false_l, negb_true_iff.
  by destruct (strip (String a r)).
Qed.

(** ** The handlers, step by step *)

Ltac unfold_monad :=
  unfold bind, raise_if, ret, raise, teachers_find_one,
    announcements_find_one, announcements_find_sorted,
    announcements_insert_one, announcements_update_with,
    announcements_delete_one.

Lemma Db_eta (db : Db) :
  {| announcements_collection := announcements_collection db;
     teachers_collection := teachers_collection db |} = db.
Proof. by destruct db. Qed.

Lemma get_announcement_run (id : string) (db : Db) :
  get_announcement id db
  = match ObjectId_of_str id with
    | None => (Raise InvalidId, db)
    | Some oid =>
        match find_one (by_id oid) (announcements_collection db) with
        | Some d => (Return (serialize_announcement d), db)
        | None => (Raise NotFound, db)
        end
    end.
Proof.
  unfold get_announcement. unfold_monad.
  destruct (ObjectId_of_str id) as [oid|]; [|done].
  destruct (find_one _ _) as [d|] eqn:Hd; [|done].
  apply find_one_matches in Hd as [Hm%matches_by_id _].
  by rewrite (lookup_truthy _ _ _ Hm).
Qed.

Lemma create_announcement_run (now : datetime) (new_id : ObjectId)
    (message expiration_date : string) (start_date : option string)
    (teacher_username : string) (db : Db) :
  create_announcement now new_id message expiration_date start_date
    teacher_username db
  = if bool_decide (in_directory teacher_username db) then
      if dates_parse expiration_date start_date then
        if decide (strip message = "") then (Raise EmptyMessage, db)
        else
          let announcement : doc :=
            {[ "message" := VStr (strip message);
               "start_date" := of_optional start_date;
               "expiration_date" := VStr expiration_date;
               "created_by" := VStr teacher_username;
               "created_at" := VStr (isoformat now) ]} in
          match find_one (by_id new_id) (announcements_collection db) with
          | Some _ => (Raise DuplicateKeyError, db)
          | None =>
              (Return (delete "_id" (<["id" := VStr (ObjectId_str new_id)]>
                                       (<["_id" := VOid new_id]> announcement))),
               {| announcements_collection :=
                    announcements_collection db
                    ++ [<["_id" := VOid new_id]> announcement];
                  teachers_collection := teachers_collection db |})
          end
      else (Raise InvalidDate, db)
    else (Raise Unauthorized, db).
Proof.
  unfold create_announcement. unfold_monad.
  rewrite truthy_find_teacher.
  destruct (bool_decide (in_directory _ _)); [|done]. cbn [negb].
  destruct (dates_parse _ _); [|done]. cbn [negb].
  destruct (decide (strip message = "")) as [He|He].
  - apply message_test_true in He. by rewrite He.
  - apply message_test in He. rewrite He.
    unfold insert_one. by destruct (find_one _ _).
Qed.

Lemma update_announcement_with_run
    (upd : query → doc → collection → collection * UpdateResult)
    (now : datetime) (id message expiration_date : string)
    (start_date : option string) (teacher_username : string) (db : Db) :
  update_announcement_with upd now id message expiration_date start_date
    teacher_username db
  = if bool_decide (in_directory teacher_username db) then
      match ObjectId_of_str id with
      | None => (Raise InvalidId, db)
      | Some oid =>
          if bool_decide (has_document oid (announcements_collection db)) then
            if dates_parse expiration_date start_date then
              if decide (strip message = "") then (Raise EmptyMessage, db)
              else
                let update_data : doc :=
                  {[ "message" := VStr (strip message);
                     "start_date" := of_optional start_date;
                     "expiration_date" := VStr expiration_date;
                     "updated_by" := VStr teacher_username;
                     "updated_at" := VStr (isoformat now) ]} in
                let '(c, r) := upd (by_id oid) update_data
                                 (announcements_collection db) in
                let db' := {| announcements_collection := c;
                              teachers_collection := teachers_collection db |} in
                if (modified_count r =? 0)%nat && (matched_count r =? 0)%nat
                then (Raise UpdateFailed, db')
                else (Return (serialize_announcement <$> find_one (by_id oid) c),
                      db')
            else (Raise InvalidDate, db)
          else (Raise NotFound, db)
      end
    else (Raise Unauthorized, db).
Proof.
  unfold update_announcement_with. unfold_monad.
  rewrite truthy_find_teacher.
  destruct (bool_decide (in_directory _ _)); [|done]. cbn [negb].
  destruct (ObjectId_of_str id) as [oid|]; [|done].
  rewrite truthy_find_by_id.
  destruct (bool_decide (has_document _ _)); [|done]. cbn [negb].
  destruct (dates_parse _ _); [|done]. cbn [negb].
  destruct (decide (strip message = "")) as [He|He].
  - apply message_test_true in He. by rewrite He.
  - apply message_test in He. rewrite He. cbv zeta.
    destruct (upd _ _ _) as [c r]. cbn [announcements_collection].
    by destruct (_ && _).
Qed.

Lemma delete_announcement_run (id teacher_username : string) (db : Db) :
  delete_announcement id teacher_username db
  = if bool_decide (in_directory teacher_username db) then
      match ObjectId_of_str id with
      | None => (Raise InvalidId, db)
      | Some oid =>
          let '(c, n) := delete_one (by_id oid) (announcements_collection db) in
          let db' := {| announcements_collection := c;
                        teachers_collection := teachers_collection db |} in
          if (n =? 0)%nat then (Raise NotFound, db')
          else (Return {[ "message" := "Announcement deleted successfully" ]},
                db')
      end
    else (Raise Unauthorized, db).
Proof.
  unfold delete_announcement. unfold_monad.
  rewrite truthy_find_teacher.
  destruct (bool_decide (in_directory _ _)); [|done]. cbn [negb].
  destruct (ObjectId_of_str id) as [oid|]; [|done].
  destruct (delete_one _ _) as [c n]. by destruct (n =? 0)%nat.
Qed.

Lemma foldl_snoc_map {A B} (f : A → B) (l : list A) (acc : list B) :
  foldl (λ acc x, acc ++ [f x]) acc l = acc ++ (f <$> l).
Proof.
  revert acc. induction l as [|x l IH]; intros acc; simpl.
  - by rewrite app_nil_r.
  - rewrite IH. by rewrite <-app_assoc.
Qed.

Lemma get_announcements_run (now : datetime) (active_only : bool) (db : Db) :
  get_announcements now active_only db
  = (Return (serialize_announcement <$>
       sort_desc "created_at"
         (find (if active_only then
                  QAnd [ QField "expiration_date" (CGte (strftime now));
                         QOr [ QField "start_date" (CExists false);
                               QField "start_date" (CEq VNull);
                               QField "start_date" (CLte (strftime now)) ] ]
                else QAnd [])
               (announcements_collection db))), db).
Proof.
  unfold get_announcements. unfold_monad.
  by rewrite foldl_snoc_map.
Qed.

(** ** Serialization *)

Lemma serialize_found (d : doc) (v : value) :
  d !! "_id" = Some v →
  serialize_announcement d = delete "_id" (<["id" := VStr (py_str v)]> d).
Proof.
  intros H. unfold serialize_announcement.
  by rewrite H, (lookup_truthy _ _ _ H).
Qed.

Lemma serialize_lookup_other (d : doc) (k : string) :
  k ≠ "id" → k ≠ "_id" → serialize_announcement d !! k = d !! k.
Proof.
  intros Hid H_id. unfold serialize_announcement.
  destruct (d !! "_id") as [v|]; [|done].
  destruct (dict_truthy d); [|done].
  by rewrite lookup_delete_ne, lookup_insert_ne.
Qed.

Lemma serialize_lookup_id (d : doc) (v : value) :
  d !! "_id" = Some v →
  serialize_announcement d !! "id" = Some (VStr (py_str v)) ∧
  serialize_announcement d !! "_id" = None.
Proof.
  intros H. rewrite (serialize_found _ _ H). split.
  - by rewrite lookup_delete_ne, lookup_insert_eq.
  - by rewrite lookup_delete_eq.
Qed.

(** ** Listing *)

Lemma matches_active (D : string) (d : doc) :
  matches (QAnd [ QField "expiration_date" (CGte D);
                  QOr [ QField "start_date" (CExists false);
                        QField "start_date" (CEq VNull);
                        QField "start_date" (CLte D) ] ]) d = true
  ↔ active D d.
Proof.
  unfold active. cbn [matches forallb existsb cond_matches].
  rewrite andb_true_r, andb_true_iff.
  apply Morphisms_Prop.and_iff_morphism.
  - destruct (d !! "expiration_date") as [[|e|o]|]; try done.
    unfold String.le. by rewrite Is_true_true.
  - destruct (d !! "start_date") as [[|s|o]|]; simpl; try done.
    rewrite orb_false_r. unfold String.le. by rewrite Is_true_true.
Qed.

Lemma List_filter_reflect {A} (f : A → bool) (P : A → Prop)
    `{!∀ x, Decision (P x)} (l : list A) :
  (∀ x, f x = true ↔ P x) → List.filter f l = filter P l.
Proof.
  intros Hf. induction l as [|x l IH]; [done|].
  simpl. rewrite filter_cons.
  destruct (decide (P x)) as [HP|HP], (f x) eqn:Hx; rewrite IH; try done.
  - apply Hf in HP. congruence.
  - apply Hf in Hx. done.
Qed.

Lemma find_all (c : collection) : find (QAnd []) c = c.
Proof. unfold find. induction c as [|d c IH]; simpl; [done|]. by f_equal. Qed.

(** On dates in the zero-padded form the store's comparison of strings is
    the comparison of calendar dates. *)

Lemma compare_digit (a b : N) (s t : string) :
  String.compare (String (digit a) s) (String (digit b) t)
  = match (a mod 10 ?= b mod 10)%N with
    | Eq => String.compare s t
    | c => c
    end.
Proof.
  cbn [String.compare]. unfold Ascii.compare, digit.
  pose proof (N.mod_lt a 10) as Ha. pose proof (N.mod_lt b 10) as Hb.
  rewrite !N_ascii_embedding by lia.
  destruct (N.compare_spec (48 + a mod 10) (48 + b mod 10)),
    (N.compare_spec (a mod 10) (b mod 10)); try done; lia.
Qed.

Lemma compare_hyphen (s t : string) :
  String.compare (String "-" s) (String "-" t) = String.compare s t.
Proof. done. Qed.

Lemma div10_step (n k : N) : (n / k = 10 * (n / (k * 10)) + (n / k) mod 10)%N.
Proof. rewrite <-N.Div0.div_div. apply (N.div_mod (n / k) 10). lia. Qed.

Lemma digits2 (n : N) : (n < 100)%N → (n = 10 * ((n / 10) mod 10) + n mod 10)%N.
Proof.
  intros H. pose proof (N.div_mod n 10 ltac:(lia)) as E0.
  assert (n / 10 < 10)%N by (apply N.Div0.div_lt_upper_bound; lia).
  rewrite (N.mod_small (n / 10)) by lia. lia.
Qed.

Lemma digits4 (n : N) :
  (n < 10000)%N →
  (n = 1000 * ((n / 1000) mod 10) + 100 * ((n / 100) mod 10)
       + 10 * ((n / 10) mod 10) + n mod 10)%N.
Proof.
  intros H.
  pose proof (N.div_mod n 10 ltac:(lia)) as E0.
  pose proof (div10_step n 10) as E1. pose proof (div10_step n 100) as E2.
  change (10 * 10)%N with 100%N in E1. change (100 * 10)%N with 1000%N in E2.
  assert (n / 1000 < 10)%N by (apply N.Div0.div_lt_upper_bound; lia).
  rewrite (N.mod_small (n / 1000)) by lia. lia.
Qed.

Lemma le_digit (a b : N) (s t : string) :
  String.le (String (digit a) s) (String (digit b) t)
  ↔ (a mod 10 < b mod 10)%N ∨ ((a mod 10)%N = (b mod 10)%N ∧ String.le s t).
Proof.
  unfold String.le, String.leb. rewrite compare_digit.
  destruct (N.compare_spec (a mod 10) (b mod 10)) as [Heq|Hlt|Hgt]; simpl.
  - split; [by right | by intros [?|[_ ?]]; [lia|]].
  - split; [by left | done].
  - split; [done | intros [?|[? _]]; lia].
Qed.

Lemma le_hyphen (s t : string) :
  String.le (String "-" s) (String "-" t) ↔ String.le s t.
Proof. unfold String.le, String.leb. by rewrite compare_hyphen. Qed.

Lemma date_string_le (y1 m1 d1 y2 m2 d2 : N) :
  (y1 < 10000 → y2 < 10000 → m1 < 100 → m2 < 100 → d1 < 100 → d2 < 100 →
   String.le (date_string y1 m1 d1) (date_string y2 m2 d2)
   ↔ date_le y1 m1 d1 y2 m2 d2)%N.
Proof.
  intros Hy1 Hy2 Hm1 Hm2 Hd1 Hd2.
  unfold date_string, pad4, pad2, date_le.
  rewrite !le_digit, !le_hyphen, !le_digit, !le_hyphen, !le_digit.
  assert (String.le "" "" ↔ True) as -> by done.
  pose proof (digits4 y1 Hy1) as Ey1. pose proof (digits4 y2 Hy2) as Ey2.
  pose proof (digits2 m1 Hm1) as Em1. pose proof (digits2 m2 Hm2) as Em2.
  pose proof (digits2 d1 Hd1) as Ed1. pose proof (digits2 d2 Hd2) as Ed2.
  repeat match goal with
         | |- context [(?a mod 10)%N] =>
             let x := fresh "x" in
             pose proof (N.mod_lt a 10 ltac:(lia));
             generalize dependent (a mod 10)%N; intros x **
         end.
  lia.
Qed.

(** The clock's date is in that form whenever its fields are in range, so
    against an announcement whose dates are too, [active] is the calendar
    condition. *)
Lemma active_calendar (now : datetime) (A : doc) (ye me de ys ms ds : N) :
  (year now < 10000 → month now < 100 → day now < 100 →
   ye < 10000 → me < 100 → de < 100 → ys < 10000 → ms < 100 → ds < 100 →
   A !! "expiration_date" = Some (VStr (date_string ye me de)) →
   A !! "start_date" = Some (VStr (date_string ys ms ds)) →
   active (strftime now) A
   ↔ date_le (year now) (month now) (day now) ye me de ∧
     date_le ys ms ds (year now) (month now) (day now))%N.
Proof.
  intros ????????? He Hs. unfold active, strftime. rewrite He, Hs.
  by rewrite !date_string_le.
Qed.

(** A date without the padding passes [strptime] but is not in that form:
    it is compared as text. *)
Example unpadded_date :
  strptime "2024-3-1" = Some (2024, 3, 1)%N ∧
  ¬ String.le "2024-3-1" "2024-03-07".
Proof. split; [reflexivity | vm_compute; exact id]. Qed.

Example listing_of_the_board :
  (λ d : doc, d !! "message") <$>
    (default [] (match (get_announcements Example.clock true Example.board).1
                 with Return l => Some l | Raise _ => None end))
  = [ Some (VStr "Library closed"); Some (VStr "Exam Friday") ] ∧
  (λ d : doc, d !! "message") <$>
    (default [] (match (get_announcements Example.clock false Example.board).1
                 with Return l => Some l | Raise _ => None end))
  = [ Some (VStr "Library closed"); Some (VStr "Exam Friday");
      Some (VStr "Science fair"); Some (VStr "Museum trip") ].
Proof. split; vm_compute; reflexivity. Qed.


(** ** Creation *)

Lemma dates_parse_true (expiration_date : string) (start_date : option string) :
  is_Some (strptime expiration_date) →
  (∀ s, start_date = Some s → is_Some (strptime s)) →
  dates_parse expiration_date start_date = true.
Proof.
  intros [x Hx] Hs. unfold dates_parse. rewrite Hx.
  destruct start_date as [s|]; [|done].
  destruct (str_truthy s); [|done].
  apply bool_decide_eq_true. by apply Hs.
Qed.

Lemma dates_parse_expiration (expiration_date : string)
    (start_date : option string) :
  strptime expiration_date = None →
  dates_parse expiration_date start_date = false.
Proof. intros H. unfold dates_parse. by rewrite H. Qed.

Lemma record_of_inserted (body : doc) (o : ObjectId) (id : value) :
  body !! "_id" = None →
  delete "_id" (<["id" := id]> (<["_id" := VOid o]> body)) = <["id" := id]> body.
Proof.
  intros H. rewrite delete_insert_ne by done.
  rewrite delete_insert_eq. by rewrite delete_id.
Qed.

Lemma not_has_document_find_one (o : ObjectId) (c : collection) :
  ¬ has_document o c ↔ find_one (by_id o) c = None.
Proof. rewrite has_document_find_one, eq_None_not_Some. done. Qed.

Lemma unique_ids_snoc (c : collection) (d : doc) (o : ObjectId) :
  unique_ids c → ¬ has_document o c → d !! "_id" = Some (VOid o) →
  unique_ids (c ++ [d]).
Proof.
  unfold unique_ids, has_document. intros Hc Hno Hd.
  rewrite omap_app. apply NoDup_app. split; [done|]. split.
  - intros v Hv. simpl. rewrite Hd. intros ->%list_elem_of_singleton.
    apply list_elem_of_omap in Hv as (x & Hx & Hxo).
    apply Hno, Exists_exists. eauto.
  - simpl. rewrite Hd. apply NoDup_singleton.
Qed.

(** C2. A create call by a teacher of the directory, with dates that parse
    and a message that is not blank, appends one document to the
    announcements: the trimmed message, the two dates as given (null for an
    omitted start date, never a default), the teacher as [created_by], the
    clock reading in ISO format with its time part as [created_at], and the
    fresh identifier, which keeps identifiers unique. The record returned
    is that document with the identifier as the string [id]. *)
Theorem create_announcement_persists (now : datetime) (new_id : ObjectId)
    (message expiration_date : string) (start_date : option string)
    (teacher_username : string) (db : Db) :
  in_directory teacher_username db →
  is_Some (strptime expiration_date) →
  (∀ s, start_date = Some s → is_Some (strptime s)) →
  strip message ≠ "" →
  ¬ has_document new_id (announcements_collection db) →
  let stored : doc :=
    {[ "_id" := VOid new_id;
       "message" := VStr (strip message);
       "start_date" := of_optional start_date;
       "expiration_date" := VStr expiration_date;
       "created_by" := VStr teacher_username;
       "created_at" := VStr (isoformat now) ]} in
  let record : doc :=
    {[ "id" := VStr (ObjectId_str new_id);
       "message" := VStr (strip message);
       "start_date" := of_optional start_date;
       "expiration_date" := VStr expiration_date;
       "created_by" := VStr teacher_username;
       "created_at" := VStr (isoformat now) ]} in
  create_announcement now new_id message expiration_date start_date
    teacher_username db
  = (Return record,
     {| announcements_collection := announcements_collection db ++ [stored];
        teachers_collection := teachers_collection db |}) ∧
  trimmed message (strip message) ∧
  (start_date = None → record !! "start_date" = Some VNull) ∧
  String.get 10 (isoformat now) = Some "T"%char ∧
  (unique_ids (announcements_collection db) →
   unique_ids (announcements_collection db ++ [stored])).
Proof.
  intros Hteacher Hexp Hstart Hmsg Hfresh stored record.
  split; [|split; [apply strip_trimmed|split; [|split]]].
  - rewrite create_announcement_run.
    rewrite (bool_decide_eq_true_2 _ Hteacher).
    rewrite (dates_parse_true _ _ Hexp Hstart).
    destruct (decide (strip message = "")); [done|]. cbv zeta.
    apply not_has_document_find_one in Hfresh. rewrite Hfresh.
    by rewrite record_of_inserted.
  - intros ->. done.
  - done.
  - intros Hu. by apply (unique_ids_snoc _ _ new_id).
Qed.

Lemma create_announcement_persists_witness :
  create_announcement Example.clock Example.oid1 "  Exam Friday " "2099-01-01"
    None "mchen" Example.empty_school
  = (Return Example.exam_record, Example.school).
Proof.
  refine (proj1 (create_announcement_persists Example.clock Example.oid1
            "  Exam Friday " "2099-01-01" None "mchen" Example.empty_school
            _ _ _ _ _)).
  - vm_compute. apply Exists_cons_hd. reflexivity.
  - vm_compute. eexists. reflexivity.
  - intros s Hs. discriminate Hs.
  - vm_compute. discriminate.
  - vm_compute. intros H. inversion H.
Defined.

(** C3. Round trip: when a create call succeeds, the record it returns
    carries the new identifier as the string [id], and a [get] on that
    identifier in the resulting store succeeds with the very same record. *)
Theorem create_then_get (now : datetime) (new_id : ObjectId)
    (message expiration_date : string) (start_date : option string)
    (teacher_username : string) (db db' : Db) (record : doc) :
  create_announcement now new_id message expiration_date start_date
    teacher_username db = (Return record, db') →
  record !! "id" = Some (VStr (ObjectId_str new_id)) ∧
  get_announcement (ObjectId_str new_id) db' = (Return record, db').
Proof.
  rewrite create_announcement_run. intros H.
  repeat (case_match; simplify_eq). cbv zeta in H.
  destruct (find_one (by_id new_id) _) eqn:Hfresh; simplify_eq.
  split.
  - by rewrite lookup_delete_ne, lookup_insert_eq.
  - rewrite get_announcement_run, ObjectId_of_str_str.
    cbn [announcements_collection].
    erewrite find_one_app_r; [|done|].
    + by rewrite (serialize_found _ (VOid new_id))
        by (by rewrite lookup_insert_eq).
    + apply matches_by_id. by rewrite lookup_insert_eq.
Qed.

Lemma create_then_get_witness :
  Example.exam_record !! "id" = Some (VStr Example.id1) ∧
  get_announcement Example.id1 Example.school
  = (Return Example.exam_record, Example.school).
Proof.
  apply (create_then_get Example.clock Example.oid1 "  Exam Friday "
           "2099-01-01" None "mchen" Example.empty_school Example.school
           Example.exam_record).
  vm_compute. reflexivity.
Defined.

(** ** Update *)

Lemma update_data_lookup_other (message expiration_date updated_by updated_at
    start_date : value) (k : string) :
  k ∉ ["message"; "start_date"; "expiration_date"; "updated_by"; "updated_at"] →
  ({[ "message" := message; "start_date" := start_date;
      "expiration_date" := expiration_date; "updated_by" := updated_by;
      "updated_at" := updated_at ]} : doc) !! k = None.
Proof.
  rewrite !not_elem_of_cons. intros (? & ? & ? & ? & ? & _).
  rewrite !lookup_insert_ne by done. by rewrite lookup_singleton_ne.
Qed.

(** What a successful update leaves and returns, over the collection's own
    [update_one]. *)
Lemma update_announcement_success (now : datetime)
    (id message expiration_date : string) (start_date : option string)
    (teacher_username : string) (db db' : Db) (result : option doc) :
  update_announcement now id message expiration_date start_date
    teacher_username db = (Return result, db') →
  ∃ (oid : ObjectId) (pre post : collection) (old : doc),
    let new : doc :=
      {[ "message" := VStr (strip message);
         "start_date" := of_optional start_date;
         "expiration_date" := VStr expiration_date;
         "updated_by" := VStr teacher_username;
         "updated_at" := VStr (isoformat now) ]} ∪ old in
    ObjectId_of_str id = Some oid ∧
    strip message ≠ "" ∧
    announcements_collection db = pre ++ old :: post ∧
    find_one (by_id oid) (announcements_collection db) = Some old ∧
    db' = {| announcements_collection := pre ++ new :: post;
             teachers_collection := teachers_collection db |} ∧
    find_one (by_id oid) (pre ++ new :: post) = Some new ∧
    result = Some (serialize_announcement new).
Proof.
  unfold update_announcement. rewrite update_announcement_with_run. intros H.
  repeat (case_match; simplify_eq).
  rename o into oid. exists oid.
  match goal with
  | Hd : bool_decide (has_document _ _) = true |- _ =>
      apply bool_decide_eq_true, has_document_find_one in Hd as [old Hold]
  end.
  apply find_one_Some in Hold as Hsplit.
  destruct Hsplit as (pre & post & Hc & Hm & Hpre).
  exists pre, post, old. cbv zeta in *.
  rewrite Hc, (update_one_found _ _ _ _ _ Hpre Hm) in H.
  cbn [modified_count matched_count Nat.eqb andb] in H.
  rewrite andb_false_r in H.
  assert (find_one (by_id oid)
            (pre ++ ({[ "message" := VStr (strip message);
                        "start_date" := of_optional start_date;
                        "expiration_date" := VStr expiration_date;
                        "updated_by" := VStr teacher_username;
                        "updated_at" := VStr (isoformat now) ]} ∪ old) :: post)
          = Some ({[ "message" := VStr (strip message);
                     "start_date" := of_optional start_date;
                     "expiration_date" := VStr expiration_date;
                     "updated_by" := VStr teacher_username;
                     "updated_at" := VStr (isoformat now) ]} ∪ old)) as Hnew.
  { apply find_one_Some. exists pre, post. split; [done|]. split; [|done].
    apply matches_by_id. apply matches_by_id in Hm.
    rewrite lookup_union_r; [done|].
    apply update_data_lookup_other. compute_done. }
  rewrite Hnew in H. simplify_eq.
  rewrite <-Hc at 1. by rewrite Hc at 1.
Qed.

(** C4. A successful update replaces the document found under the
    identifier, in place: [message], [start_date] (null when omitted) and
    [expiration_date] are overwritten, [updated_by] and [updated_at] are
    set, every other field, [created_by] and [created_at] among them, is as
    it was, and no other document and no teacher changes. The record
    returned is the stored document read back by its identifier, which is
    what a [get] on the resulting store returns. *)
Theorem update_announcement_overwrites (now : datetime)
    (id message expiration_date : string) (start_date : option string)
    (teacher_username : string) (db db' : Db) (result : option doc) :
  update_announcement now id message expiration_date start_date
    teacher_username db = (Return result, db') →
  ∃ (oid : ObjectId) (pre post : collection) (old new : doc),
    ObjectId_of_str id = Some oid ∧
    announcements_collection db = pre ++ old :: post ∧
    old !! "_id" = Some (VOid oid) ∧
    announcements_collection db' = pre ++ new :: post ∧
    teachers_collection db' = teachers_collection db ∧
    new !! "message" = Some (VStr (strip message)) ∧
    new !! "start_date" = Some (of_optional start_date) ∧
    new !! "expiration_date" = Some (VStr expiration_date) ∧
    new !! "updated_by" = Some (VStr teacher_username) ∧
    new !! "updated_at" = Some (VStr (isoformat now)) ∧
    (∀ k, k ∉ ["message"; "start_date"; "expiration_date";
               "updated_by"; "updated_at"] → new !! k = old !! k) ∧
    new !! "created_by" = old !! "created_by" ∧
    new !! "created_at" = old !! "created_at" ∧
    find_one (by_id oid) (announcements_collection db') = Some new ∧
    result = Some (serialize_announcement new) ∧
    get_announcement id db' = (Return (serialize_announcement new), db').
Proof.
  intros H. apply update_announcement_success in H.
  destruct H as (oid & pre & post & old & Hid & _ & Hc & Hold & -> & Hnew & ->).
  cbv zeta in Hnew.
  set (fields := ({[ "message" := VStr (strip message);
                     "start_date" := of_optional start_date;
                     "expiration_date" := VStr expiration_date;
                     "updated_by" := VStr teacher_username;
                     "updated_at" := VStr (isoformat now) ]} : doc)) in *.
  exists oid, pre, post, old, (fields ∪ old).
  assert (∀ k, k ∉ ["message"; "start_date"; "expiration_date";
                    "updated_by"; "updated_at"] →
               (fields ∪ old) !! k = old !! k) as Hframe.
  { intros k Hk. apply lookup_union_r. by apply update_data_lookup_other. }
  assert (∀ k v, fields !! k = Some v → (fields ∪ old) !! k = Some v) as Hset.
  { intros k v Hk. by apply lookup_union_Some_l. }
  split_and!; try done.
  - by apply find_one_matches in Hold as [?%matches_by_id _].
  - by apply Hset.
  - by apply Hset.
  - by apply Hset.
  - by apply Hset.
  - by apply Hset.
  - apply Hframe. compute_done.
  - apply Hframe. compute_done.
  - rewrite get_announcement_run, Hid. cbn [announcements_collection].
    by rewrite Hnew.
Qed.

Lemma update_announcement_overwrites_witness :
  ∃ new : doc,
    announcements_collection
      (update_announcement Example.clock Example.id1 " Exam moved " "2099-02-01"
         None "mchen" Example.school).2 = [new] ∧
    new !! "message" = Some (VStr "Exam moved") ∧
    new !! "created_by" = Example.exam !! "created_by".
Proof.
  destruct (update_announcement_overwrites Example.clock Example.id1
              " Exam moved " "2099-02-01" None "mchen" Example.school
              (update_announcement Example.clock Example.id1 " Exam moved "
                 "2099-02-01" None "mchen" Example.school).2
              (Some (<[ "message" := VStr "Exam moved" ]>
                       (<[ "expiration_date" := VStr "2099-02-01" ]>
                          (<[ "updated_by" := VStr "mchen" ]>
                             (<[ "updated_at" := VStr (isoformat Example.clock) ]>
                                Example.exam_record))))))
    as (oid & pre & post & old & new & Hid & Hc & _ & Hc' & _ & Hm & _ & _ & _
        & _ & _ & Hby & _).
  { vm_compute. reflexivity. }
  exists new.
  destruct pre as [|x [|y pre]]; simplify_eq/=.
  split; [done|]. split; [done|]. done.
Defined.

(** ** Failures *)

Lemma delete_one_none (q : query) (c c' : collection) :
  delete_one q c = (c', 0%nat) → c' = c.
Proof.
  destruct (find_one q c) as [d|] eqn:Hd.
  - apply find_one_Some in Hd as (pre & post & -> & Hm & Hpre).
    by rewrite (delete_one_found _ _ _ _ Hpre Hm).
  - rewrite (delete_one_not_found _ _ Hd). by intros [= <-].
Qed.

Lemma update_one_matches (o : ObjectId) (fields : doc) (c : collection) :
  has_document o c → matched_count (update_one (by_id o) fields c).2 = 1%nat.
Proof.
  intros [d (pre & post & -> & Hm & Hpre)%find_one_Some]%has_document_find_one.
  by rewrite (update_one_found _ _ _ _ _ Hpre Hm).
Qed.

Lemma create_announcement_raise (now : datetime) (new_id : ObjectId)
    (message expiration_date : string) (start_date : option string)
    (teacher_username : string) (db db' : Db) (e : exn) :
  create_announcement now new_id message expiration_date start_date
    teacher_username db = (Raise e, db') → db' = db.
Proof.
  rewrite create_announcement_run. intros H.
  repeat (case_match; simplify_eq); try done.
  cbv zeta in H. by destruct (find_one _ _); simplify_eq.
Qed.

Lemma update_announcement_raise (now : datetime)
    (id message expiration_date : string) (start_date : option string)
    (teacher_username : string) (db db' : Db) (e : exn) :
  update_announcement now id message expiration_date start_date
    teacher_username db = (Raise e, db') → db' = db.
Proof.
  unfold update_announcement. rewrite update_announcement_with_run. intros H.
  repeat (case_match; simplify_eq); try done.
  cbv zeta in H.
  match goal with
  | Hd : bool_decide (has_document _ _) = true |- _ =>
      apply bool_decide_eq_true in Hd;
      pose proof (update_one_matches _
        {[ "message" := VStr (strip message);
           "start_date" := of_optional start_date;
           "expiration_date" := VStr expiration_date;
           "updated_by" := VStr teacher_username;
           "updated_at" := VStr (isoformat now) ]} _ Hd) as Hcount
  end.
  destruct (update_one _ _ _) as [c r]. simpl in Hcount. rewrite Hcount in H.
  rewrite andb_false_r in H. simplify_eq.
Qed.

Lemma delete_announcement_raise (id teacher_username : string) (db db' : Db)
    (e : exn) :
  delete_announcement id teacher_username db = (Raise e, db') → db' = db.
Proof.
  rewrite delete_announcement_run. intros H.
  repeat (case_match; simplify_eq); try done.
  match goal with
  | Hn : (_ =? 0)%nat = true |- _ => apply Nat.eqb_eq in Hn as ->
  end.
  match goal with
  | Hdel : delete_one _ _ = _ |- _ => apply delete_one_none in Hdel as ->
  end.
  cbv zeta in H. simplify_eq. apply Db_eta.
Qed.

Lemma get_announcement_state (id : string) (db : Db) :
  (get_announcement id db).2 = db.
Proof. rewrite get_announcement_run. by repeat case_match. Qed.

(** C5. A request that fails leaves both collections as they were, whatever
    the failure. In particular a write on behalf of a user who is not in
    the teacher directory fails with Unauthorized, and an update by a
    teacher of the directory, of a document that exists, with an expiration
    date that does not parse, fails with InvalidDate. *)
Theorem failed_request_changes_nothing (now : datetime) (new_id : ObjectId)
    (req : request) (db : Db) :
  (∀ e db', router now new_id req db = (Raise e, db') → db' = db) ∧
  (∀ username, writer req = Some username → ¬ in_directory username db →
     router now new_id req db = (Raise Unauthorized, db)) ∧
  (∀ id message expiration_date start_date teacher_username oid,
     req = UpdateAnnouncement id message expiration_date start_date
             teacher_username →
     in_directory teacher_username db →
     ObjectId_of_str id = Some oid →
     has_document oid (announcements_collection db) →
     strptime expiration_date = None →
     router now new_id req db = (Raise InvalidDate, db)).
Proof.
  split; [|split].
  - intros e db' H. destruct req; unfold router, bind, ret in H.
    + rewrite get_announcements_run in H. simplify_eq.
    + pose proof (get_announcement_state announcement_id db) as Hs.
      destruct (get_announcement _ _) as [[d|e'] db'']; simplify_eq/=. done.
    + destruct (create_announcement _ _ _ _ _ _ _) as [[d|e'] db''] eqn:Hc;
        simplify_eq. by apply create_announcement_raise in Hc.
    + destruct (update_announcement _ _ _ _ _ _ _) as [[d|e'] db''] eqn:Hc;
        simplify_eq. by apply update_announcement_raise in Hc.
    + destruct (delete_announcement _ _ _) as [[d|e'] db''] eqn:Hc;
        simplify_eq. by apply delete_announcement_raise in Hc.
  - intros username Hw Hno.
    apply (bool_decide_eq_false_2 _) in Hno.
    destruct req; simplify_eq/=; unfold bind, ret.
    + by rewrite create_announcement_run, Hno.
    + unfold update_announcement.
      by rewrite update_announcement_with_run, Hno.
    + by rewrite delete_announcement_run, Hno.
  - intros id message expiration_date start_date teacher_username oid
      -> Hteacher Hid Hdoc Hdate.
    unfold router, bind, ret, update_announcement.
    rewrite update_announcement_with_run.
    rewrite (bool_decide_eq_true_2 _ Hteacher), Hid.
    rewrite (bool_decide_eq_true_2 _ Hdoc).
    by rewrite (dates_parse_expiration _ _ Hdate).
Qed.

Lemma failed_request_changes_nothing_witness :
  router Example.clock Example.oid2
    (UpdateAnnouncement Example.id1 "Exam moved" "not-a-date" None "mchen")
    Example.school
  = (Raise InvalidDate, Example.school) ∧
  router Example.clock Example.oid2
    (DeleteAnnouncement Example.id1 "intruder") Example.school
  = (Raise Unauthorized, Example.school).
Proof.
  split.
  - refine (proj2 (proj2 (failed_request_changes_nothing Example.clock
              Example.oid2 _ Example.school))
              Example.id1 "Exam moved" "not-a-date" None "mchen" Example.oid1
              eq_refl _ _ _ _).
    + apply Exists_cons_hd. reflexivity.
    + vm_compute. reflexivity.
    + apply Exists_cons_hd. reflexivity.
    + vm_compute. reflexivity.
  - refine (proj1 (proj2 (failed_request_changes_nothing Example.clock
              Example.oid2 (DeleteAnnouncement Example.id1 "intruder")
              Example.school)) "intruder" eq_refl _).
    intros H. apply Exists_cons in H as [H|H]; [discriminate H|].
    inversion H.
Defined.

(** ** Reading one announcement *)

(** C6. A [get] fails with InvalidId exactly when the identifier is not a
    24-character hexadecimal string, and with NotFound exactly when it is
    one and no document carries it; otherwise it returns the document that
    carries it, with the identifier as the string [id], without the store's
    [_id], and every other field as stored. The store is never changed. *)
Theorem get_announcement_outcomes (id : string) (db : Db) :
  (get_announcement id db = (Raise InvalidId, db) ↔ ¬ valid_identifier id) ∧
  (get_announcement id db = (Raise NotFound, db) ↔
     valid_identifier id ∧
     ∀ oid, ObjectId_of_str id = Some oid →
            ¬ has_document oid (announcements_collection db)) ∧
  (∀ oid, ObjectId_of_str id = Some oid →
          has_document oid (announcements_collection db) →
     ∃ d : doc,
       d ∈ announcements_collection db ∧
       d !! "_id" = Some (VOid oid) ∧
       get_announcement id db = (Return (serialize_announcement d), db) ∧
       serialize_announcement d !! "id" = Some (VStr (ObjectId_str oid)) ∧
       serialize_announcement d !! "_id" = None ∧
       ∀ k, k ≠ "id" → k ≠ "_id" → serialize_announcement d !! k = d !! k).
Proof.
  rewrite get_announcement_run. split; [|split].
  - rewrite <-ObjectId_of_str_None.
    destruct (ObjectId_of_str id) as [oid|]; [|done].
    split; [|done]. by destruct (find_one _ _).
  - rewrite <-ObjectId_of_str_is_Some.
    destruct (ObjectId_of_str id) as [oid|].
    + destruct (find_one _ _) as [d|] eqn:Hd.
      * split; [done|]. intros [_ H]. destruct (H oid eq_refl).
        apply has_document_find_one. rewrite Hd. eauto.
      * split; [|done]. intros _. split; [eauto|].
        intros ? [= <-]. by apply not_has_document_find_one.
    + split; [done|]. by intros [[? ?] _].
  - intros oid -> [d Hd]%has_document_find_one. rewrite Hd.
    apply find_one_matches in Hd as [Hid%matches_by_id Hin].
    exists d. destruct (serialize_lookup_id d _ Hid) as [? ?].
    split_and!; try done. intros k ??. by apply serialize_lookup_other.
Qed.

Lemma get_announcement_outcomes_witness :
  ∃ d : doc,
    d ∈ announcements_collection Example.school ∧
    get_announcement Example.id1 Example.school
    = (Return (serialize_announcement d), Example.school) ∧
    serialize_announcement d !! "id" = Some (VStr Example.id1) ∧
    serialize_announcement d !! "_id" = None.
Proof.
  destruct (proj2 (proj2 (get_announcement_outcomes Example.id1 Example.school))
              Example.oid1)
    as (d & Hin & _ & Hget & Hid & H_id & _).
  - vm_compute. reflexivity.
  - apply Exists_cons_hd. reflexivity.
  - exists d. split; [exact Hin|]. split; [exact Hget|].
    split; [exact Hid | exact H_id].
Defined.

(** ** Order of the checks of an update *)

(** C7. In an update by a teacher of the directory the identifier is
    checked first: a malformed identifier gives InvalidId and an identifier
    that no document carries gives NotFound, whatever the dates and the
    message are. Hence InvalidDate or EmptyMessage is only ever returned
    for a well-formed identifier of an existing document. *)
Theorem update_checks_identifier_first (now : datetime)
    (id message expiration_date : string) (start_date : option string)
    (teacher_username : string) (db : Db) :
  in_directory teacher_username db →
  (¬ valid_identifier id →
     update_announcement now id message expiration_date start_date
       teacher_username db = (Raise InvalidId, db)) ∧
  (∀ oid, ObjectId_of_str id = Some oid →
     ¬ has_document oid (announcements_collection db) →
     update_announcement now id message expiration_date start_date
       teacher_username db = (Raise NotFound, db)) ∧
  (∀ db',
     update_announcement now id message expiration_date start_date
       teacher_username db = (Raise InvalidDate, db') ∨
     update_announcement now id message expiration_date start_date
       teacher_username db = (Raise EmptyMessage, db') →
     valid_identifier id ∧
     ∃ oid, ObjectId_of_str id = Some oid ∧
            has_document oid (announcements_collection db)).
Proof.
  intros Hteacher. unfold update_announcement.
  rewrite update_announcement_with_run.
  rewrite (bool_decide_eq_true_2 _ Hteacher).
  split; [|split].
  - intros Hid%ObjectId_of_str_None. by rewrite Hid.
  - intros oid -> Hno. by rewrite (bool_decide_eq_false_2 _ Hno).
  - intros db' H. rewrite <-ObjectId_of_str_is_Some.
    destruct (ObjectId_of_str id) as [oid|]; [|by destruct H].
    split; [eauto|]. exists oid. split; [done|].
    destruct (decide (has_document oid (announcements_collection db))) as [|Hno];
      [done|].
    rewrite (bool_decide_eq_false_2 _ Hno) in H. by destruct H.
Qed.

Lemma update_checks_identifier_first_witness :
  update_announcement Example.clock "no-such-id" "   " "not-a-date" None
    "mchen" Example.school = (Raise InvalidId, Example.school) ∧
  update_announcement Example.clock Example.id2 "   " "not-a-date" None
    "mchen" Example.school = (Raise NotFound, Example.school).
Proof.
  split.
  - refine (proj1 (update_checks_identifier_first Example.clock "no-such-id"
              "   " "not-a-date" None "mchen" Example.school _) _).
    + apply Exists_cons_hd. reflexivity.
    + intros [Hlen _]. vm_compute in Hlen. discriminate Hlen.
  - refine (proj1 (proj2 (update_checks_identifier_first Example.clock
              Example.id2 "   " "not-a-date" None "mchen" Example.school _))
              Example.oid2 _ _).
    + apply Exists_cons_hd. reflexivity.
    + vm_compute. reflexivity.
    + intros H. apply Exists_cons in H as [H|H]; [|inversion H].
      vm_compute in H. discriminate H.
Defined.

(** ** The defensive failure of an update *)

(** C8. Over any store write, an update ends with UpdateFailed only when
    the write reports no match and no modification for an identifier whose
    document the handler has just found. A write that reports a match
    whenever a document matches never leads there, and the collection's own
    [update_one] is such a write: the handler on it never returns
    UpdateFailed. *)
Theorem update_failed_unreachable
    (upd : query → doc → collection → collection * UpdateResult)
    (now : datetime) (id message expiration_date : string)
    (start_date : option string) (teacher_username : string) (db db' : Db) :
  (update_announcement_with upd now id message expiration_date start_date
     teacher_username db = (Raise UpdateFailed, db') →
   ∃ (oid : ObjectId) (fields : doc),
     ObjectId_of_str id = Some oid ∧
     has_document oid (announcements_collection db) ∧
     matched_count (upd (by_id oid) fields (announcements_collection db)).2
       = 0%nat ∧
     modified_count (upd (by_id oid) fields (announcements_collection db)).2
       = 0%nat) ∧
  ((∀ q fields c, is_Some (find_one q c) →
                  matched_count (upd q fields c).2 ≠ 0%nat) →
   update_announcement_with upd now id message expiration_date start_date
     teacher_username db ≠ (Raise UpdateFailed, db')) ∧
  update_announcement now id message expiration_date start_date
    teacher_username db ≠ (Raise UpdateFailed, db').
Proof.
  assert (update_announcement_with upd now id message expiration_date
            start_date teacher_username db = (Raise UpdateFailed, db') →
          ∃ (oid : ObjectId) (fields : doc),
            ObjectId_of_str id = Some oid ∧
            has_document oid (announcements_collection db) ∧
            matched_count (upd (by_id oid) fields
                             (announcements_collection db)).2 = 0%nat ∧
            modified_count (upd (by_id oid) fields
                              (announcements_collection db)).2 = 0%nat)
    as Hfailed.
  { rewrite update_announcement_with_run. unfold UpdateFailed. intros H.
    repeat (case_match; simplify_eq).
    match goal with
    | Hd : bool_decide (has_document _ _) = true |- _ =>
        apply bool_decide_eq_true in Hd
    end.
    match goal with
    | Hu : upd _ ?f _ = _ |- _ => exists o, f; rewrite Hu
    end.
    match goal with
    | Hr : _ && _ = true |- _ =>
        apply andb_true_iff in Hr as [?%Nat.eqb_eq ?%Nat.eqb_eq]
    end.
    done. }
  split; [done|]. split.
  - intros Hupd H. apply Hfailed in H as (oid & fields & _ & Hdoc & Hm & _).
    apply has_document_find_one in Hdoc. by apply (Hupd _ fields) in Hdoc.
  - intros H. unfold update_announcement in H. revert H.
    rewrite update_announcement_with_run. unfold UpdateFailed.
    repeat (case_match; simplify_eq); try done.
    match goal with
    | Hd : bool_decide (has_document _ _) = true, Hu : update_one _ ?f _ = _
      |- _ =>
        apply bool_decide_eq_true in Hd;
        pose proof (update_one_matches _ f _ Hd) as Hcount;
        rewrite Hu in Hcount; simpl in Hcount
    end.
    match goal with
    | Hr : _ && _ = true |- _ => rewrite Hcount, andb_false_r in Hr
    end.
    done.
Qed.

Lemma update_failed_unreachable_witness :
  ∃ (oid : ObjectId) (fields : doc),
    ObjectId_of_str Example.id1 = Some oid ∧
    has_document oid (announcements_collection Example.school).
Proof.
  destruct (proj1 (update_failed_unreachable
              (λ _ _ c, (c, {| matched_count := 0; modified_count := 0 |}))
              Example.clock Example.id1 "Exam moved" "2099-02-01" None "mchen"
              Example.school Example.school))
    as (oid & fields & Hid & Hdoc & _).
  - vm_compute. reflexivity.
  - exists oid, fields. split; [exact Hid | exact Hdoc].
Defined.

(** ** Deletion *)

(** C9. With identifiers unique in the collection, the deletion by a
    teacher of the directory of an announcement that exists returns the
    confirmation message and removes that one document, the rest of the
    store staying as it was; a [get] on the same identifier then fails with
    NotFound. *)
Theorem delete_then_get (id teacher_username : string) (db : Db)
    (oid : ObjectId) :
  unique_ids (announcements_collection db) →
  in_directory teacher_username db →
  ObjectId_of_str id = Some oid →
  has_document oid (announcements_collection db) →
  ∃ (pre post : collection) (d : doc),
    let db' := {| announcements_collection := pre ++ post;
                  teachers_collection := teachers_collection db |} in
    announcements_collection db = pre ++ d :: post ∧
    d !! "_id" = Some (VOid oid) ∧
    delete_announcement id teacher_username db
    = (Return {[ "message" := "Announcement deleted successfully" ]}, db') ∧
    ¬ has_document oid (pre ++ post) ∧
    get_announcement id db' = (Raise NotFound, db').
Proof.
  intros Huniq Hteacher Hid [d Hd]%has_document_find_one.
  apply find_one_Some in Hd as (pre & post & Hc & Hm & Hpre).
  exists pre, post, d. cbv zeta.
  assert (find_one (by_id oid) (pre ++ post) = None) as Hgone.
  { apply find_one_None, Forall_app. split; [done|].
    rewrite Hc in Huniq. apply (unique_ids_rest oid pre post d Huniq).
    by apply matches_by_id. }
  split_and!.
  - done.
  - by apply matches_by_id.
  - rewrite delete_announcement_run.
    rewrite (bool_decide_eq_true_2 _ Hteacher), Hid, Hc.
    by rewrite (delete_one_found _ _ _ _ Hpre Hm).
  - by apply not_has_document_find_one.
  - rewrite get_announcement_run, Hid. cbn [announcements_collection].
    by rewrite Hgone.
Qed.

Lemma delete_then_get_witness :
  delete_announcement Example.id1 "mchen" Example.school
  = (Return {[ "message" := "Announcement deleted successfully" ]},
     Example.empty_school) ∧
  get_announcement Example.id1 Example.empty_school
  = (Raise NotFound, Example.empty_school).
Proof.
  destruct (delete_then_get Example.id1 "mchen" Example.school Example.oid1)
    as (pre & post & d & Hc & _ & Hdel & _ & Hget).
  - vm_compute. apply NoDup_cons. split; [|apply NoDup_nil; exact I].
    intros H. inversion H.
  - apply Exists_cons_hd. reflexivity.
  - vm_compute. reflexivity.
  - apply Exists_cons_hd. reflexivity.
  - destruct pre as [|x [|y pre]]; destruct post; simplify_eq/=.
    split; [exact Hdel | exact Hget].
Defined.

(** ** Stored messages *)






(** ** Unique identifiers *)

Lemma unique_ids_remove (pre post : collection) (d : doc) :
  unique_ids (pre ++ d :: post) → unique_ids (pre ++ post).
Proof.
  unfold unique_ids. rewrite !omap_app. intros H.
  eapply sublist_NoDup; [exact H|].
  apply sublist_app; [done|]. simpl.
  destruct (d !! "_id"); [by apply sublist_cons | done].
Qed.

Lemma unique_ids_replace (pre post : collection) (old new : doc) :
  new !! "_id" = old !! "_id" →
  unique_ids (pre ++ old :: post) → unique_ids (pre ++ new :: post).
Proof. unfold unique_ids. rewrite !omap_app. simpl. by intros ->. Qed.

Lemma delete_announcement_collection (id teacher_username : string) (db : Db) :
  announcements_collection (delete_announcement id teacher_username db).2
  = announcements_collection db ∨
  ∃ pre d post,
    announcements_collection db = pre ++ d :: post ∧
    announcements_collection (delete_announcement id teacher_username db).2
    = pre ++ post.
Proof.
  rewrite delete_announcement_run.
  destruct (bool_decide _); [|by left].
  destruct (ObjectId_of_str id) as [oid|]; [|by left].
  destruct (find_one (by_id oid) (announcements_collection db)) as [d|] eqn:Hd.
  - apply find_one_Some in Hd as (pre & post & Hc & Hm & Hpre).
    right. exists pre, d, post. split; [done|].
    by rewrite Hc, (delete_one_found _ _ _ _ Hpre Hm).
  - left. by rewrite (delete_one_not_found _ _ Hd).
Qed.

(** Every request keeps the identifiers of the announcements unique. *)
Lemma router_unique_ids (now : datetime) (new_id : ObjectId) (req : request)
    (db : Db) :
  unique_ids (announcements_collection db) →
  unique_ids (announcements_collection (router now new_id req db).2).
Proof.
  intros Hdb. destruct req; unfold router, bind, ret.
  - by rewrite get_announcements_run.
  - pose proof (get_announcement_state announcement_id db) as Hs.
    destruct (get_announcement _ _) as [[d|e] db']; simpl in *; by subst.
  - rewrite create_announcement_run.
    repeat (case_match; simplify_eq); try done; cbv zeta in *;
      destruct (find_one (by_id new_id) _) eqn:Hfresh; simplify_eq; try done.
    cbn [snd announcements_collection].
    apply (unique_ids_snoc _ _ new_id); [done| |by rewrite lookup_insert_eq].
    by apply not_has_document_find_one.
  - destruct (update_announcement _ _ _ _ _ _ _) as [[result|e] db'] eqn:H.
    + apply update_announcement_success in H
        as (oid & pre & post & old & _ & _ & Hc & _ & -> & _ & _).
      cbn [snd announcements_collection]. rewrite Hc in Hdb.
      apply (unique_ids_replace _ _ old); [|done].
      apply lookup_union_r. apply update_data_lookup_other. compute_done.
    + by apply update_announcement_raise in H as ->.
  - pose proof (delete_announcement_collection announcement_id
                  teacher_username db) as Hs.
    destruct (delete_announcement _ _ _) as [[d|e] db']; simpl in *;
      destruct Hs as [->|(pre & x & post & Hc & ->)]; try done;
      rewrite Hc in Hdb; by apply unique_ids_remove in Hdb.
Qed.

Lemma run_snoc (trace : list (datetime * ObjectId * request))
    (r : datetime * ObjectId * request) (db : Db) :
  run (trace ++ [r]) db = step (run trace db) r.
Proof. unfold run. by rewrite foldl_snoc. Qed.

(** In every store reached from one without announcements, identifiers are
    unique. *)
Lemma run_unique_ids (trace : list (datetime * ObjectId * request)) (db : Db) :
  unique_ids (announcements_collection db) →
  unique_ids (announcements_collection (run trace db)).
Proof.
  intros Hdb. induction trace as [|r trace IH] using rev_ind; [done|].
  rewrite run_snoc. by apply router_unique_ids.
Qed.



(** * Further properties of the handlers *)

(** ** Serialization *)

Lemma serialize_no_native_id (d : doc) : serialize_announcement d !! "_id" = None.
Proof.
  destruct (d !! "_id") as [v|] eqn:Hd.
  - by apply serialize_lookup_id in Hd as [_ ?].
  - unfold serialize_announcement. by rewrite Hd.
Qed.

Lemma serialize_without_id (d : doc) :
  d !! "_id" = None → serialize_announcement d = d.
Proof. intros H. unfold serialize_announcement. by rewrite H. Qed.

(** X1. A serialized record never has an [_id], so serializing twice is
    serializing once, and a dict without [_id] is returned as it is. *)
Theorem serialize_announcement_idempotent (d : doc) :
  serialize_announcement d !! "_id" = None ∧
  serialize_announcement (serialize_announcement d) = serialize_announcement d ∧
  serialize_announcement (delete "_id" d) = delete "_id" d.
Proof.
  split; [apply serialize_no_native_id|]. split.
  - apply serialize_without_id, serialize_no_native_id.
  - apply serialize_without_id, lookup_delete_eq.
Qed.

(** ** What the responses show *)

(** What a successful create has checked, stored and returned. *)
Lemma create_announcement_success (now : datetime) (new_id : ObjectId)
    (message expiration_date : string) (start_date : option string)
    (teacher_username : string) (db db' : Db) (record : doc) :
  create_announcement now new_id message expiration_date start_date
    teacher_username db = (Return record, db') →
  let stored : doc :=
    {[ "_id" := VOid new_id;
       "message" := VStr (strip message);
       "start_date" := of_optional start_date;
       "expiration_date" := VStr expiration_date;
       "created_by" := VStr teacher_username;
       "created_at" := VStr (isoformat now) ]} in
  in_directory teacher_username db ∧
  dates_parse expiration_date start_date = true ∧
  strip message ≠ "" ∧
  find_one (by_id new_id) (announcements_collection db) = None ∧
  record = serialize_announcement stored ∧
  db' = {| announcements_collection := announcements_collection db ++ [stored];
           teachers_collection := teachers_collection db |}.
Proof.
  rewrite create_announcement_run. intros H stored.
  destruct (bool_decide (in_directory _ _)) eqn:Ht; [|done].
  apply bool_decide_eq_true in Ht.
  destruct (dates_parse _ _); [|done].
  destruct (decide (strip message = "")); [done|]. cbv zeta in H.
  destruct (find_one _ _) eqn:Hfresh; simplify_eq.
  split_and!; done.
Qed.

Lemma find_by_id_lookup (o : ObjectId) (c : collection) (d : doc) :
  find_one (by_id o) c = Some d → d !! "_id" = Some (VOid o).
Proof. by intros [?%matches_by_id _]%find_one_matches. Qed.

(** X2. No response of any route shows the store's [_id]: the records of a
    listing have none, and the record returned by a get, a create or an
    update has none and carries its identifier as the string [id]. *)
Theorem responses_hide_native_id (now : datetime) (new_id : ObjectId)
    (req : request) (db : Db) :
  match (router now new_id req db).1 with
  | Return r => hides_native_id r
  | Raise _ => True
  end.
Proof.
  destruct req; unfold router, bind, ret.
  - rewrite get_announcements_run. simpl. apply Forall_fmap, Forall_forall.
    intros d _. apply serialize_no_native_id.
  - rewrite get_announcement_run.
    destruct (ObjectId_of_str _) as [oid|]; [|done].
    destruct (find_one _ _) as [d|] eqn:Hd; [|done]. simpl.
    apply find_by_id_lookup, serialize_lookup_id in Hd as [? ?]. eauto.
  - destruct (create_announcement _ _ _ _ _ _ _) as [[record|e] db'] eqn:H;
      [|done].
    apply create_announcement_success in H as (_ & _ & _ & _ & -> & _).
    simpl. split; [apply serialize_no_native_id|].
    eexists. by eapply serialize_lookup_id, lookup_insert_eq.
  - destruct (update_announcement _ _ _ _ _ _ _) as [[result|e] db'] eqn:H;
      [|done].
    apply update_announcement_success in H
      as (oid & pre & post & old & _ & _ & _ & _ & _ & Hnew & ->).
    cbv zeta in Hnew. simpl.
    apply find_by_id_lookup, serialize_lookup_id in Hnew as [? ?]. eauto.
  - by destruct (delete_announcement _ _ _) as [[d|e] db'].
Qed.

(** ** Outcomes of a deletion *)

(** X3. A deletion by a teacher of the directory fails with InvalidId
    exactly when the identifier is not 24 hexadecimal characters, and with
    NotFound exactly when it is and no announcement carries it, the store
    unchanged in both cases; otherwise it returns the confirmation. *)
Theorem delete_announcement_outcomes (id teacher_username : string) (db : Db) :
  in_directory teacher_username db →
  (delete_announcement id teacher_username db = (Raise InvalidId, db)
   ↔ ¬ valid_identifier id) ∧
  (delete_announcement id teacher_username db = (Raise NotFound, db)
   ↔ valid_identifier id ∧
     ∀ oid, ObjectId_of_str id = Some oid →
            ¬ has_document oid (announcements_collection db)) ∧
  ((delete_announcement id teacher_username db).1
   = Return {[ "message" := "Announcement deleted successfully" ]}
   ↔ ∃ oid, ObjectId_of_str id = Some oid ∧
            has_document oid (announcements_collection db)).
Proof.
  intros Hteacher. rewrite delete_announcement_run.
  rewrite (bool_decide_eq_true_2 _ Hteacher).
  rewrite <-ObjectId_of_str_None, <-ObjectId_of_str_is_Some.
  destruct (ObjectId_of_str id) as [oid|].
  - destruct (find_one (by_id oid) (announcements_collection db)) as [d|] eqn:Hd.
    + assert (has_document oid (announcements_collection db)) as Hdoc.
      { apply has_document_find_one. rewrite Hd. eauto. }
      apply find_one_Some in Hd as (pre & post & Hc & Hm & Hpre).
      rewrite Hc at 1 2 3. rewrite (delete_one_found _ _ _ _ Hpre Hm).
      cbv zeta. simpl. split_and!; split; try done.
      * intros [_ H]. by destruct (H oid eq_refl).
      * eauto.
    + assert (¬ has_document oid (announcements_collection db)) as Hno.
      { by apply not_has_document_find_one. }
      rewrite (delete_one_not_found _ _ Hd). cbv zeta. simpl.
      rewrite Db_eta. split_and!; split; try done.
      * intros _. split; [eauto|]. by intros ? [= <-].
      * by intros (? & [= <-] & ?).
  - split_and!; split; try done.
    + by intros [[? ?] _].
    + by intros (? & ? & _).
Qed.

Lemma delete_announcement_outcomes_witness :
  delete_announcement "not-an-id" "mchen" Example.school
  = (Raise InvalidId, Example.school) ∧
  delete_announcement Example.id2 "mchen" Example.school
  = (Raise NotFound, Example.school).
Proof.
  split.
  - refine (proj2 (proj1 (delete_announcement_outcomes "not-an-id" "mchen"
              Example.school _)) _).
    + apply Exists_cons_hd. reflexivity.
    + intros [Hlen _]. vm_compute in Hlen. discriminate Hlen.
  - refine (proj2 (proj1 (proj2 (delete_announcement_outcomes Example.id2
              "mchen" Example.school _))) _).
    + apply Exists_cons_hd. reflexivity.
    + split.
      * split; vm_compute; reflexivity.
      * intros oid Hoid H. apply Exists_cons in H as [H|H]; [|inversion H].
        vm_compute in Hoid. injection Hoid as <-.
        vm_compute in H. discriminate H.
Defined.

(** ** Order of the checks of a create *)

Lemma dates_parse_false (expiration_date : string) (start_date : option string) :
  dates_parse expiration_date start_date = false
  ↔ dates_rejected expiration_date start_date.
Proof.
  unfold dates_parse, dates_rejected.
  destruct (strptime expiration_date) as [x|]; [|by split; [left|]].
  destruct start_date as [s|].
  - destruct s as [|a s]; simpl.
    + split; [done|]. by intros [?|(? & [= <-] & ? & _)].
    + rewrite bool_decide_eq_false, <-eq_None_not_Some. split.
      * intros H. right. by exists (String a s).
      * by intros [?|(? & [= <-] & _ & ?)].
  - split; [done|]. by intros [?|(? & ? & _)].
Qed.

(** X4. A create call checks the teacher, then the dates, then the message:
    it fails with Unauthorized exactly when the user is not in the
    directory, with InvalidDate exactly when the teacher is known and the
    dates are rejected, whatever the message, and with EmptyMessage exactly
    when teacher and dates pass and the trimmed message is empty. None of
    these failures changes the store. *)
Theorem create_announcement_checks (now : datetime) (new_id : ObjectId)
    (message expiration_date : string) (start_date : option string)
    (teacher_username : string) (db : Db) :
  (create_announcement now new_id message expiration_date start_date
     teacher_username db = (Raise Unauthorized, db)
   ↔ ¬ in_directory teacher_username db) ∧
  (create_announcement now new_id message expiration_date start_date
     teacher_username db = (Raise InvalidDate, db)
   ↔ in_directory teacher_username db ∧
     dates_rejected expiration_date start_date) ∧
  (create_announcement now new_id message expiration_date start_date
     teacher_username db = (Raise EmptyMessage, db)
   ↔ in_directory teacher_username db ∧
     ¬ dates_rejected expiration_date start_date ∧
     strip message = "").
Proof.
  rewrite create_announcement_run, <-dates_parse_false.
  destruct (bool_decide (in_directory _ _)) eqn:Ht.
  - apply bool_decide_eq_true in Ht.
    destruct (dates_parse _ _) eqn:Hd.
    + destruct (decide (strip message = "")) as [He|He].
      * split_and!; split; try done; try by intros [_ ?].
      * cbv zeta. destruct (find_one _ _);
          (split_and!; split; try done; try by intros [_ ?]);
          by intros (_ & _ & ?).
    + split_and!; split; try done. by intros (_ & ? & _).
  - apply bool_decide_eq_false in Ht.
    split_and!; split; try done; by intros [? _].
Qed.

(** ** An empty start date *)

Lemma le_empty_l (s : string) : String.le "" s.
Proof. by destruct s. Qed.

(** X5. A start date given as the empty string is not parsed: although the
    empty string is no date, a create call with it, by a known teacher with
    a valid expiration date, a message that is not blank and a fresh
    identifier, succeeds and stores the empty string; the announcement is
    then active at every date up to its expiration, as one without a start
    date. *)
Theorem empty_start_date_unchecked (now : datetime) (new_id : ObjectId)
    (message expiration_date teacher_username : string) (db : Db) :
  in_directory teacher_username db →
  is_Some (strptime expiration_date) →
  strip message ≠ "" →
  ¬ has_document new_id (announcements_collection db) →
  strptime "" = None ∧
  ∃ stored : doc,
    create_announcement now new_id message expiration_date (Some "")
      teacher_username db
    = (Return (serialize_announcement stored),
       {| announcements_collection := announcements_collection db ++ [stored];
          teachers_collection := teachers_collection db |}) ∧
    stored !! "start_date" = Some (VStr "") ∧
    ∀ D, active D stored ↔ String.le D expiration_date.
Proof.
  intros Hteacher [x Hx] Hmsg Hfresh. split; [done|].
  eexists. split; [|split].
  - rewrite create_announcement_run.
    rewrite (bool_decide_eq_true_2 _ Hteacher).
    unfold dates_parse. rewrite Hx. cbn [str_truthy].
    destruct (decide (strip message = "")); [done|]. cbv zeta.
    apply not_has_document_find_one in Hfresh. rewrite Hfresh.
    by rewrite <-(serialize_found _ (VOid new_id)) by apply lookup_insert_eq.
  - done.
  - intros D. unfold active.
    rewrite lookup_insert_ne, lookup_insert_ne, lookup_insert_ne by done.
    rewrite lookup_insert_eq.
    rewrite lookup_insert_ne, lookup_insert_ne by done.
    rewrite lookup_insert_eq.
    split; [by intros [? _] | intros ?; split; [done | apply le_empty_l]].
Qed.

Lemma empty_start_date_unchecked_witness :
  ∃ stored : doc,
    (create_announcement Example.clock Example.oid1 "Exam Friday" "2099-01-01"
       (Some "") "mchen" Example.empty_school).1
    = Return (serialize_announcement stored) ∧
    stored !! "start_date" = Some (VStr "") ∧
    active "2024-03-07" stored.
Proof.
  destruct (empty_start_date_unchecked Example.clock Example.oid1 "Exam Friday"
              "2099-01-01" "mchen" Example.empty_school)
    as (_ & stored & Hc & Hs & Ha).
  - apply Exists_cons_hd. reflexivity.
  - vm_compute. eexists. reflexivity.
  - vm_compute. discriminate.
  - intros H. inversion H.
  - exists stored. split; [by rewrite Hc|]. split; [exact Hs|].
    apply Ha. vm_compute. exact I.
Defined.

(** ** The window of a listed announcement *)

Lemma listed_record (now : datetime) (db : Db) (l : list doc) (r : doc) :
  (get_announcements now true db).1 = Return l → r ∈ l →
  ∃ d : doc, d ∈ announcements_collection db ∧ active (strftime now) d ∧
             r = serialize_announcement d.
Proof.
  rewrite get_announcements_run. intros [= <-].
  intros (d & -> & Hd)%list_elem_of_fmap.
  rewrite sort_desc_perm in Hd. unfold find in Hd.
  apply list_elem_of_In, filter_In in Hd as [Hin Hm].
  exists d. split; [by apply list_elem_of_In|].
  split; [by apply matches_active | done].
Qed.



(** ** What a request does to the store *)

Lemma update_announcement_checked (now : datetime)
    (id message expiration_date : string) (start_date : option string)
    (teacher_username : string) (db db' : Db) (result : option doc) :
  update_announcement now id message expiration_date start_date
    teacher_username db = (Return result, db') →
  in_directory teacher_username db ∧
  dates_parse expiration_date start_date = true.
Proof.
  unfold update_announcement. rewrite update_announcement_with_run.
  destruct (bool_decide (in_directory _ _)) eqn:Ht; [|done].
  apply bool_decide_eq_true in Ht.
  destruct (ObjectId_of_str id); [|done].
  destruct (bool_decide (has_document _ _)); [|done].
  by destruct (dates_parse _ _).
Qed.

(** The two ways a deletion ends: with an error and the store as it was, or
    with the confirmation and one document less. *)
Lemma delete_announcement_cases (id teacher_username : string) (db : Db) :
  (∃ e, delete_announcement id teacher_username db = (Raise e, db)) ∨
  ∃ (oid : ObjectId) (pre post : collection) (d : doc),
    ObjectId_of_str id = Some oid ∧
    announcements_collection db = pre ++ d :: post ∧
    matches (by_id oid) d = true ∧
    Forall (λ x, matches (by_id oid) x = false) pre ∧
    delete_announcement id teacher_username db
    = (Return {[ "message" := "Announcement deleted successfully" ]},
       {| announcements_collection := pre ++ post;
          teachers_collection := teachers_collection db |}).
Proof.
  rewrite delete_announcement_run.
  destruct (bool_decide _); [|left; eauto].
  destruct (ObjectId_of_str id) as [oid|]; [|left; eauto].
  destruct (find_one (by_id oid) (announcements_collection db)) as [d|] eqn:Hd.
  - apply find_one_Some in Hd as (pre & post & Hc & Hm & Hpre).
    right. exists oid, pre, post, d. split_and!; try done.
    by rewrite Hc at 1; rewrite (delete_one_found _ _ _ _ Hpre Hm).
  - left. rewrite (delete_one_not_found _ _ Hd). cbv zeta. simpl.
    rewrite Db_eta. eauto.
Qed.

Lemma bind_ret_state {A B} (m : M A) (f : A → B) (db : Db) :
  (bind m (λ x, ret (f x)) db).2 = (m db).2.
Proof. unfold bind, ret. by destruct (m db) as [[a|e] db']. Qed.

Lemma router_teachers (now : datetime) (new_id : ObjectId) (req : request)
    (db : Db) :
  teachers_collection (router now new_id req db).2 = teachers_collection db.
Proof.
  destruct req; unfold router; rewrite bind_ret_state.
  - by rewrite get_announcements_run.
  - by rewrite get_announcement_state.
  - destruct (create_announcement _ _ _ _ _ _ _) as [[record|e] db'] eqn:H.
    + by apply create_announcement_success in H as (_ & _ & _ & _ & _ & ->).
    + by apply create_announcement_raise in H as ->.
  - destruct (update_announcement _ _ _ _ _ _ _) as [[result|e] db'] eqn:H.
    + by apply update_announcement_success in H
        as (oid & pre & post & old & _ & _ & _ & _ & -> & _).
    + by apply update_announcement_raise in H as ->.
  - by destruct (delete_announcement_cases announcement_id teacher_username db)
      as [[e ->]|(oid & pre & post & d & _ & _ & _ & _ & ->)].
Qed.

(** X7. No request ever writes to the teacher directory: after any request,
    and after any run of requests, the directory is the one before, so the
    same users are teachers. *)
Theorem teacher_directory_never_changes
    (trace : list (datetime * ObjectId * request)) (db : Db) :
  teachers_collection (run trace db) = teachers_collection db ∧
  ∀ username, in_directory username (run trace db) ↔ in_directory username db.
Proof.
  assert (teachers_collection (run trace db) = teachers_collection db) as H.
  { induction trace as [|r trace IH] using rev_ind; [done|].
    rewrite run_snoc. unfold step. by rewrite router_teachers. }
  split; [done|]. intros username. unfold in_directory. by rewrite H.
Qed.

(** X8. The number of announcements changes only with a create that
    returns, by one more, and with a delete that returns, by one less; a
    listing, a get, an update and every failing request leave it as it is. *)
Theorem announcement_count (now : datetime) (new_id : ObjectId) (req : request)
    (db : Db) :
  let before := length (announcements_collection db) in
  let after := length (announcements_collection (router now new_id req db).2) in
  match req, (router now new_id req db).1 with
  | CreateAnnouncement _ _ _ _, Return _ => after = S before
  | DeleteAnnouncement _ _, Return _ => S after = before
  | _, _ => after = before
  end.
Proof.
  cbv zeta. destruct req; unfold router, bind, ret.
  - by rewrite get_announcements_run.
  - pose proof (get_announcement_state announcement_id db) as Hs.
    destruct (get_announcement _ _) as [[d|e] db']; simpl in *; by subst.
  - destruct (create_announcement _ _ _ _ _ _ _) as [[record|e] db'] eqn:H.
    + apply create_announcement_success in H as (_ & _ & _ & _ & _ & ->).
      simpl. rewrite length_app. simpl. lia.
    + by apply create_announcement_raise in H as ->.
  - destruct (update_announcement _ _ _ _ _ _ _) as [[result|e] db'] eqn:H.
    + apply update_announcement_success in H
        as (oid & pre & post & old & _ & _ & Hc & _ & -> & _).
      simpl. rewrite Hc, !length_app. done.
    + by apply update_announcement_raise in H as ->.
  - destruct (delete_announcement_cases announcement_id teacher_username db)
      as [[e ->]|(oid & pre & post & d & _ & Hc & _ & _ & ->)]; [done|].
    simpl. rewrite Hc, !length_app. simpl. lia.
Qed.

(** X9. An update never inserts, removes or reorders: whatever its
    outcome, the identifiers of the announcements are the same, in the same
    order, after it as before. *)
Theorem update_keeps_identifiers (now : datetime)
    (id message expiration_date : string) (start_date : option string)
    (teacher_username : string) (db : Db) :
  ids (announcements_collection
         (update_announcement now id message expiration_date start_date
            teacher_username db).2)
  = ids (announcements_collection db).
Proof.
  destruct (update_announcement _ _ _ _ _ _ _) as [[result|e] db'] eqn:H.
  - apply update_announcement_success in H
      as (oid & pre & post & old & _ & _ & Hc & _ & -> & _).
    simpl. rewrite Hc. unfold ids. rewrite !fmap_app, !fmap_cons.
    do 2 f_equal. apply lookup_union_r, update_data_lookup_other. compute_done.
  - by apply update_announcement_raise in H as ->.
Qed.

(** X10. Repeating a successful update, with the same arguments at the same
    clock reading, succeeds again although it modifies nothing: it returns
    the same record and leaves the store as the first update left it. *)
Theorem update_announcement_idempotent (now : datetime)
    (id message expiration_date : string) (start_date : option string)
    (teacher_username : string) (db db' : Db) (result : option doc) :
  update_announcement now id message expiration_date start_date
    teacher_username db = (Return result, db') →
  update_announcement now id message expiration_date start_date
    teacher_username db' = (Return result, db').
Proof.
  intros H. apply update_announcement_checked in H as Hchecked.
  destruct Hchecked as [Hteacher Hdates].
  apply update_announcement_success in H
    as (oid & pre & post & old & Hid & Hmsg & _ & _ & -> & Hnew & ->).
  cbv zeta in Hnew.
  set (fields := ({[ "message" := VStr (strip message);
                     "start_date" := of_optional start_date;
                     "expiration_date" := VStr expiration_date;
                     "updated_by" := VStr teacher_username;
                     "updated_at" := VStr (isoformat now) ]} : doc)) in *.
  unfold update_announcement. rewrite update_announcement_with_run.
  rewrite (bool_decide_eq_true_2 (in_directory _ _)) by exact Hteacher.
  rewrite Hid. cbn [announcements_collection teachers_collection].
  rewrite bool_decide_eq_true_2
    by (apply has_document_find_one; rewrite Hnew; eauto).
  rewrite Hdates. destruct (decide (strip message = "")); [done|]. cbv zeta.
  fold fields.
  apply find_one_Some in Hnew as Hsplit.
  destruct Hsplit as (pre' & post' & Hc & Hm & Hpre).
  rewrite Hc at 1. rewrite (update_one_found _ _ _ _ _ Hpre Hm).
  assert (fields ∪ (fields ∪ old) = fields ∪ old) as ->.
  { by rewrite (assoc_L (∪)), (idemp_L (∪)). }
  cbn [modified_count matched_count Nat.eqb andb]. rewrite andb_false_r.
  rewrite <-Hc. by rewrite Hnew.
Qed.

Lemma update_announcement_idempotent_witness :
  let first :=
    update_announcement Example.clock Example.id1 "Exam moved" "2099-02-01"
      None "mchen" Example.school in
  let record : doc :=
    <[ "message" := VStr "Exam moved" ]>
      (<[ "expiration_date" := VStr "2099-02-01" ]>
         (<[ "updated_by" := VStr "mchen" ]>
            (<[ "updated_at" := VStr (isoformat Example.clock) ]>
               Example.exam_record))) in
  update_announcement Example.clock Example.id1 "Exam moved" "2099-02-01"
    None "mchen" first.2 = (Return (Some record), first.2).
Proof.
  intros first record.
  apply (update_announcement_idempotent Example.clock Example.id1 "Exam moved"
           "2099-02-01" None "mchen" Example.school).
  vm_compute. reflexivity.
Defined.

(** ** After a deletion *)

(** X11. Once an announcement has been deleted, with identifiers unique in
    the collection, a further deletion and any update under its identifier,
    by any teacher, fail with NotFound and change nothing. *)
Theorem deleted_announcement_is_gone (now : datetime)
    (id teacher_username other_teacher message expiration_date : string)
    (start_date : option string) (db db' : Db)
    (confirmation : gmap string string) :
  unique_ids (announcements_collection db) →
  delete_announcement id teacher_username db = (Return confirmation, db') →
  in_directory other_teacher db →
  delete_announcement id other_teacher db' = (Raise NotFound, db') ∧
  update_announcement now id message expiration_date start_date
    other_teacher db' = (Raise NotFound, db').
Proof.
  intros Huniq Hdel Hteacher.
  destruct (delete_announcement_cases id teacher_username db)
    as [[e He]|(oid & pre & post & d & Hid & Hc & Hm & Hpre & Hok)];
    [by rewrite He in Hdel|].
  rewrite Hok in Hdel. injection Hdel as <- <-.
  assert (find_one (by_id oid) (pre ++ post) = None) as Hgone.
  { apply find_one_None, Forall_app. split; [done|].
    rewrite Hc in Huniq. apply (unique_ids_rest oid pre post d Huniq).
    by apply matches_by_id. }
  split.
  - rewrite delete_announcement_run.
    rewrite (bool_decide_eq_true_2 (in_directory _ _)) by exact Hteacher.
    rewrite Hid. cbn [announcements_collection teachers_collection].
    by rewrite (delete_one_not_found _ _ Hgone).
  - unfold update_announcement. rewrite update_announcement_with_run.
    rewrite (bool_decide_eq_true_2 (in_directory _ _)) by exact Hteacher.
    rewrite Hid. cbn [announcements_collection teachers_collection].
    rewrite bool_decide_eq_false_2; [done|].
    by apply not_has_document_find_one.
Qed.

Lemma deleted_announcement_is_gone_witness :
  delete_announcement Example.id1 "mchen" Example.empty_school
  = (Raise NotFound, Example.empty_school) ∧
  update_announcement Example.clock Example.id1 "Exam moved" "2099-02-01" None
    "mchen" Example.empty_school = (Raise NotFound, Example.empty_school).
Proof.
  apply (deleted_announcement_is_gone Example.clock Example.id1 "mchen" "mchen"
           "Exam moved" "2099-02-01" None Example.school Example.empty_school
           {[ "message" := "Announcement deleted successfully" ]}).
  - vm_compute. apply NoDup_cons. split; [|apply NoDup_nil; exact I].
    intros H. inversion H.
  - vm_compute. reflexivity.
  - apply Exists_cons_hd. reflexivity.
Defined.

(** ** The identifier of a returned record *)

Lemma hex_digit_lower (n : N) (r : string) :
  (n < 16)%N → lower_hex (String (hex_digit n) r) = lower_hex r.
Proof.
  intros H.
  assert (n ∈ [0; 1; 2; 3; 4; 5; 6; 7; 8; 9; 10; 11; 12; 13; 14; 15]%N) as Hn.
  { rewrite !elem_of_cons. lia. }
  rewrite !elem_of_cons, elem_of_nil in Hn.
  repeat (destruct Hn as [->|Hn]; [reflexivity|]). done.
Qed.

Lemma hexlify_lower (bs : list byte) : lower_hex (hexlify bs) = true.
Proof.
  induction bs as [|b bs IH]; [done|].
  cbn [hexlify]. unfold hex_of_byte.
  pose proof (Byte.to_N_bounded b) as Hb.
  rewrite !hex_digit_lower; [done| |].
  - apply N.mod_lt. lia.
  - apply N.Div0.div_lt_upper_bound. lia.
Qed.

(** X12. The [id] of a record returned by a get is 24 lower-case
    hexadecimal characters, whatever the case of the identifier asked for,
    and asking for that [id] gives the same answer. *)
Theorem get_by_returned_identifier (id : string) (db : Db) (record : doc) :
  (get_announcement id db).1 = Return record →
  ∃ id' : string,
    record !! "id" = Some (VStr id') ∧
    String.length id' = 24%nat ∧ lower_hex id' = true ∧
    get_announcement id' db = get_announcement id db.
Proof.
  rewrite !get_announcement_run.
  destruct (ObjectId_of_str id) as [oid|]; [|done].
  destruct (find_one _ _) as [d|] eqn:Hd; [|done]. intros [= <-].
  exists (ObjectId_str oid). split_and!.
  - by apply find_by_id_lookup, serialize_lookup_id in Hd as [? _].
  - unfold ObjectId_str. rewrite length_hexlify, (binary_length oid). done.
  - apply hexlify_lower.
  - by rewrite get_announcement_run, ObjectId_of_str_str, Hd.
Qed.

Lemma get_by_returned_identifier_witness :
  ∃ id' : string,
    serialize_announcement Example.trip !! "id" = Some (VStr id') ∧
    String.length id' = 24%nat ∧ lower_hex id' = true ∧
    get_announcement id' Example.board
    = get_announcement "ABABABABABABABABABABABAB" Example.board.
Proof.
  apply (get_by_returned_identifier "ABABABABABABABABABABABAB" Example.board
           (serialize_announcement Example.trip)).
  vm_compute. reflexivity.
Defined.

(** ** A new announcement in the listing *)




(** ** The listing and the calendar *)



(** ** Today's date as an expiration date *)

Lemma digit_value_digit (n : N) : digit_value (digit n) = Some (n mod 10)%N.
Proof.
  unfold digit_value, digit.
  pose proof (N.mod_lt n 10 ltac:(done)) as Hn.
  generalize dependent (n mod 10)%N. intros x Hx.
  rewrite N_ascii_embedding by lia.
  rewrite (proj2 (N.leb_le 48 (48 + x))) by lia.
  rewrite (proj2 (N.leb_le (48 + x) 57)) by lia.
  simpl. f_equal. lia.
Qed.

Lemma match_year_pad4 (y : N) (rest : string) :
  (y < 10000)%N → match_year (pad4 y rest) = Some (y, rest).
Proof.
  intros Hy. unfold pad4, pad2, match_year. rewrite !digit_value_digit.
  do 2 f_equal. pose proof (digits4 y Hy). lia.
Qed.

Lemma N_range_cases (lo n : N) (k : nat) :
  (lo ≤ n)%N → (n < lo + N.of_nat k)%N →
  n ∈ (λ i, (lo + N.of_nat i)%N) <$> seq 0 k.
Proof.
  intros Hlo Hhi. apply list_elem_of_fmap. exists (N.to_nat (n - lo)).
  split; [lia|]. apply elem_of_seq. lia.
Qed.

Lemma match_month_pad2 (m : N) (rest : string) :
  (1 ≤ m)%N → (m ≤ 12)%N →
  match_month (pad2 m (String "-" rest)) = Some (m, String "-" rest).
Proof.
  intros Hlo Hhi. pose proof (N_range_cases 1 m 12 Hlo ltac:(lia)) as Hm.
  cbn in Hm. rewrite !elem_of_cons, elem_of_nil in Hm.
  repeat (destruct Hm as [->|Hm]; [reflexivity|]). done.
Qed.

Lemma match_day_pad2 (d : N) :
  (1 ≤ d)%N → (d ≤ 31)%N → match_day (pad2 d "") = Some (d, "").
Proof.
  intros Hlo Hhi. pose proof (N_range_cases 1 d 31 Hlo ltac:(lia)) as Hd.
  cbn in Hd. rewrite !elem_of_cons, elem_of_nil in Hd.
  repeat (destruct Hd as [->|Hd]; [reflexivity|]). done.
Qed.

Lemma days_in_month_bound (y m : N) : (days_in_month y m ≤ 31)%N.
Proof.
  unfold days_in_month.
  repeat (case_match; try lia).
Qed.

Lemma expect_hyphen_hyphen (r : string) : expect_hyphen (String "-" r) = Some r.
Proof. done. Qed.

(** The zero-padded form of a date of the calendar parses back to it. *)
Lemma strptime_date_string (y m d : N) :
  valid_date y m d → strptime (date_string y m d) = Some (y, m, d).
Proof.
  intros (Hy1 & Hy2 & Hm1 & Hm2 & Hd1 & Hd2).
  pose proof (days_in_month_bound y m).
  unfold strptime, date_string.
  rewrite match_year_pad4, expect_hyphen_hyphen by done.
  rewrite match_month_pad2, expect_hyphen_hyphen by done.
  rewrite match_day_pad2 by lia.
  rewrite (proj2 (N.leb_le 1 y)), (proj2 (N.leb_le 1 d)),
    (proj2 (N.leb_le d _)) by done.
  done.
Qed.

(** X15. The date of the clock, in the form the listing compares with, is
    accepted as an expiration date, and the bound is inclusive: when the
    clock shows a date of the calendar, a create call by a known teacher
    with that date as expiration date, a message that is not blank and a
    fresh identifier returns a record, and the active listing of the same
    day contains it. *)
Theorem expiring_today_is_listed (now : datetime) (new_id : ObjectId)
    (message teacher_username : string) (db : Db) :
  valid_date (year now) (month now) (day now) →
  in_directory teacher_username db →
  strip message ≠ "" →
  ¬ has_document new_id (announcements_collection db) →
  ∃ (record : doc) (db' : Db) (l : list doc),
    create_announcement now new_id message (strftime now) None
      teacher_username db = (Return record, db') ∧
    get_announcements now true db' = (Return l, db') ∧
    record ∈ l.
Proof.
  intros Hdate Hteacher Hmsg Hfresh.
  eexists _, _, _. split; [|split].
  - rewrite create_announcement_run.
    rewrite (bool_decide_eq_true_2 _ Hteacher).
    unfold dates_parse, strftime. rewrite (strptime_date_string _ _ _ Hdate).
    destruct (decide (strip message = "")); [done|]. cbv zeta.
    apply not_has_document_find_one in Hfresh. rewrite Hfresh.
    rewrite <-(serialize_found _ (VOid new_id)) by apply lookup_insert_eq.
    reflexivity.
  - apply get_announcements_run.
  - apply list_elem_of_fmap_2. rewrite sort_desc_perm.
    cbn [announcements_collection].
    apply list_elem_of_In, filter_In. split.
    + apply in_app_iff. right. by left.
    + apply matches_active. unfold active.
      rewrite lookup_insert_ne, lookup_insert_ne, lookup_insert_ne by done.
      rewrite lookup_insert_eq.
      rewrite lookup_insert_ne, lookup_insert_ne by done.
      rewrite lookup_insert_eq. split; [|done].
      apply (reflexivity (R := String.le)).
Qed.

Lemma expiring_today_is_listed_witness :
  ∃ (record : doc) (db' : Db) (l : list doc),
    create_announcement Example.clock Example.oid1 "Exam today"
      (strftime Example.clock) None "mchen" Example.empty_school
    = (Return record, db') ∧
    get_announcements Example.clock true db' = (Return l, db') ∧
    record ∈ l.
Proof.
  apply (expiring_today_is_listed Example.clock Example.oid1 "Exam today"
           "mchen" Example.empty_school).
  - vm_compute. repeat split; discriminate.
  - apply Exists_cons_hd. reflexivity.
  - vm_compute. discriminate.
  - intros H. inversion H.
Defined.

(** ** When the writers succeed *)

Lemma create_announcement_returns (now : datetime) (new_id : ObjectId)
    (message expiration_date : string) (start_date : option string)
    (teacher_username : string) (db : Db) :
  (∃ record db',
     create_announcement now new_id message expiration_date start_date
       teacher_username db = (Return record, db'))
  ↔ in_directory teacher_username db ∧
    ¬ dates_rejected expiration_date start_date ∧
    strip message ≠ "" ∧
    ¬ has_document new_id (announcements_collection db).
Proof.
  rewrite <-dates_parse_false, not_has_document_find_one. split.
  - intros (record & db' & H).
    apply create_announcement_success in H as (? & Hd & ? & ? & _).
    split_and!; try done. by rewrite Hd.
  - intros (Ht & Hd & Hm & Hfresh). rewrite create_announcement_run.
    rewrite (bool_decide_eq_true_2 _ Ht).
    destruct (dates_parse _ _); [|done].
    destruct (decide (strip message = "")); [done|]. cbv zeta.
    rewrite Hfresh. eauto.
Qed.

Lemma update_announcement_returns (now : datetime)
    (id message expiration_date : string) (start_date : option string)
    (teacher_username : string) (db : Db) :
  (∃ result db',
     update_announcement now id message expiration_date start_date
       teacher_username db = (Return result, db'))
  ↔ in_directory teacher_username db ∧
    (∃ oid, ObjectId_of_str id = Some oid ∧
            has_document oid (announcements_collection db)) ∧
    ¬ dates_rejected expiration_date start_date ∧
    strip message ≠ "".
Proof.
  rewrite <-dates_parse_false. split.
  - intros (result & db' & H).
    apply update_announcement_checked in H as Hc. destruct Hc as [Ht Hd].
    apply update_announcement_success in H
      as (oid & pre & post & old & Hid & Hm & _ & Hold & _).
    split_and!; try done.
    + exists oid. split; [done|]. apply has_document_find_one.
      rewrite Hold. eauto.
    + by rewrite Hd.
  - intros (Ht & (oid & Hid & Hdoc) & Hd & Hm).
    unfold update_announcement. rewrite update_announcement_with_run.
    rewrite (bool_decide_eq_true_2 _ Ht), Hid.
    rewrite (bool_decide_eq_true_2 _ Hdoc).
    destruct (dates_parse _ _); [|done].
    destruct (decide (strip message = "")); [done|]. cbv zeta.
    pose proof (update_one_matches oid
      {[ "message" := VStr (strip message);
         "start_date" := of_optional start_date;
         "expiration_date" := VStr expiration_date;
         "updated_by" := VStr teacher_username;
         "updated_at" := VStr (isoformat now) ]} _ Hdoc) as Hcount.
    destruct (update_one _ _ _) as [c r]. simpl in Hcount.
    rewrite Hcount, andb_false_r. eauto.
Qed.

(** X16. A create call returns a record exactly when the user is in the
    teacher directory, the dates are not rejected, the trimmed message is
    not empty and the generated identifier is not yet in the collection;
    an update returns one exactly when the user is in the directory, the
    identifier is well-formed and carried by an announcement, the dates are
    not rejected and the trimmed message is not empty. *)
Theorem writers_return_exactly_when (now : datetime) (new_id : ObjectId)
    (id message expiration_date : string) (start_date : option string)
    (teacher_username : string) (db : Db) :
  ((∃ record db',
      create_announcement now new_id message expiration_date start_date
        teacher_username db = (Return record, db'))
   ↔ in_directory teacher_username db ∧
     ¬ dates_rejected expiration_date start_date ∧
     strip message ≠ "" ∧
     ¬ has_document new_id (announcements_collection db)) ∧
  ((∃ result db',
      update_announcement now id message expiration_date start_date
        teacher_username db = (Return result, db'))
   ↔ in_directory teacher_username db ∧
     (∃ oid, ObjectId_of_str id = Some oid ∧
             has_document oid (announcements_collection db)) ∧
     ¬ dates_rejected expiration_date start_date ∧
     strip message ≠ "").
Proof.
  split; [apply create_announcement_returns | apply update_announcement_returns].
Qed.

(** ** No ownership *)

(** X17. Who created an announcement plays no part in who may change it:
    any two teachers of the directory get the same outcome and the same
    store from a deletion, and an update returns a record for the one
    exactly when it does for the other. *)
Theorem any_teacher_may_write (now : datetime)
    (id message expiration_date teacher other_teacher : string)
    (start_date : option string) (db : Db) :
  in_directory teacher db →
  in_directory other_teacher db →
  delete_announcement id teacher db = delete_announcement id other_teacher db ∧
  ((∃ result db',
      update_announcement now id message expiration_date start_date
        teacher db = (Return result, db'))
   ↔ ∃ result db',
       update_announcement now id message expiration_date start_date
         other_teacher db = (Return result, db')).
Proof.
  intros Ht Ho. split.
  - rewrite !delete_announcement_run.
    by rewrite (bool_decide_eq_true_2 _ Ht), (bool_decide_eq_true_2 _ Ho).
  - rewrite !update_announcement_returns. naive_solver.
Qed.

Lemma any_teacher_may_write_witness :
  delete_announcement Example.id1 "mchen" Staff.staffed_school
  = delete_announcement Example.id1 "jrivera" Staff.staffed_school.
Proof.
  refine (proj1 (any_teacher_may_write Example.clock Example.id1 "Exam moved"
            "2099-02-01" "mchen" "jrivera" None Staff.staffed_school _ _)).
  - apply Exists_cons_hd. reflexivity.
  - apply Exists_cons_tl, Exists_cons_hd. reflexivity.
Defined.

(** ** Reading *)

(** X18. Reading asks for no teacher: the answer of a listing and of a get
    depends on the announcements only, and is the same whatever the teacher
    directory holds, an empty directory included. *)
Theorem reading_ignores_directory (now : datetime) (active_only : bool)
    (id : string) (db : Db) (teachers : collection) :
  let db' := {| announcements_collection := announcements_collection db;
                teachers_collection := teachers |} in
  (get_announcements now active_only db').1
  = (get_announcements now active_only db).1 ∧
  (get_announcement id db').1 = (get_announcement id db).1.
Proof.
  cbv zeta. rewrite !get_announcements_run, !get_announcement_run.
  split; [done|]. cbn [announcements_collection].
  destruct (ObjectId_of_str id); [|done]. by destruct (find_one _ _).
Qed.

(** X19. The active listing is a part of the full listing: every record of
    the first is a record of the second, as many times at least. *)
Theorem active_listing_within_full (now : datetime) (db : Db) :
  ∃ active_records all_records : list doc,
    get_announcements now true db = (Return active_records, db) ∧
    get_announcements now false db = (Return all_records, db) ∧
    active_records ⊆+ all_records.
Proof.
  eexists _, _. split; [apply get_announcements_run|].
  split; [apply get_announcements_run|].
  apply fmap_submseteq. rewrite !sort_desc_perm, find_all.
  unfold find.
  rewrite (List_filter_reflect _ (active (strftime now)))
    by apply matches_active.
  apply sublist_submseteq, sublist_filter.
Qed.

(** ** Create, then delete *)

(** X20. Deleting what has just been created restores the store: after a
    create call that returns a record, a deletion under the [id] of that
    record, by any teacher of the directory, returns the confirmation and
    leaves both collections exactly as they were before the create. *)
Theorem create_then_delete (now : datetime) (new_id : ObjectId)
    (message expiration_date : string) (start_date : option string)
    (teacher_username other_teacher : string) (db db' : Db) (record : doc) :
  create_announcement now new_id message expiration_date start_date
    teacher_username db = (Return record, db') →
  in_directory other_teacher db →
  record !! "id" = Some (VStr (ObjectId_str new_id)) ∧
  delete_announcement (ObjectId_str new_id) other_teacher db'
  = (Return {[ "message" := "Announcement deleted successfully" ]}, db).
Proof.
  intros H Ho.
  apply create_announcement_success in H as (_ & _ & _ & Hfresh & -> & ->).
  split.
  { by apply (serialize_lookup_id _ (VOid new_id)), lookup_insert_eq. }
  rewrite delete_announcement_run.
  rewrite (bool_decide_eq_true_2 (in_directory _ _)) by exact Ho.
  rewrite ObjectId_of_str_str. cbn [announcements_collection].
  apply find_one_None in Hfresh.
  rewrite (delete_one_found _ _ [] _ Hfresh)
    by (apply matches_by_id, lookup_insert_eq).
  cbv zeta. simpl. by rewrite app_nil_r, Db_eta.
Qed.

Lemma create_then_delete_witness :
  Example.exam_record !! "id" = Some (VStr (ObjectId_str Example.oid1)) ∧
  delete_announcement (ObjectId_str Example.oid1) "mchen" Example.school
  = (Return {[ "message" := "Announcement deleted successfully" ]},
     Example.empty_school).
Proof.
  apply (create_then_delete Example.clock Example.oid1 "  Exam Friday "
           "2099-01-01" None "mchen" "mchen" Example.empty_school
           Example.school Example.exam_record).
  - vm_compute. reflexivity.
  - apply Exists_cons_hd. reflexivity.
Defined.

(** ** The dates of the stored announcements *)

Lemma digit_value_bound (c : ascii) (x : N) : digit_value c = Some x → (x ≤ 9)%N.
Proof.
  unfold digit_value. case_match; [|done]. intros [= <-].
  match goal with
  | H : _ && _ = true |- _ => apply andb_true_iff in H as [_ ?%N.leb_le]
  end.
  lia.
Qed.

Lemma match_year_bound (s r : string) (y : N) :
  match_year s = Some (y, r) → (y < 10000)%N.
Proof.
  unfold match_year. intros H. repeat (case_match; simplify_eq).
  repeat match goal with
         | H : digit_value _ = Some _ |- _ => apply digit_value_bound in H
         end.
  lia.
Qed.

Lemma days_in_month_pos (y m : N) :
  (1 ≤ days_in_month y m)%N → (1 ≤ m ∧ m ≤ 12)%N.
Proof. unfold days_in_month. repeat (case_match; try lia). Qed.

(** What [strptime] accepts is a date of the calendar. *)
Lemma strptime_valid (s : string) (y m d : N) :
  strptime s = Some (y, m, d) → valid_date y m d.
Proof.
  unfold strptime. intros H.
  destruct (match_year s) as [[y' r1]|] eqn:Hy; [|done].
  apply match_year_bound in Hy.
  repeat (case_match; simplify_eq).
  match goal with
  | H : _ && _ && _ = true |- _ =>
      apply andb_true_iff in H as [[?%N.leb_le ?%N.leb_le]%andb_true_iff
                                     ?%N.leb_le]
  end.
  unfold valid_date.
  assert (1 ≤ m ∧ m ≤ 12)%N by (apply (days_in_month_pos y); lia).
  lia.
Qed.

Lemma dates_parse_ok (expiration_date : string) (start_date : option string)
    (d : doc) :
  dates_parse expiration_date start_date = true →
  d !! "expiration_date" = Some (VStr expiration_date) →
  d !! "start_date" = Some (of_optional start_date) →
  dates_ok d.
Proof.
  unfold dates_parse. intros H He Hs.
  destruct (strptime expiration_date) as [[[y m] dd]|] eqn:Hexp; [|done].
  split.
  - exists expiration_date. split; [done|]. exists y, m, dd.
    split; [done|]. by apply strptime_valid in Hexp.
  - destruct start_date as [s|]; [|by left]. right.
    destruct s as [|a s]; [by left|]. right.
    simpl in H. apply bool_decide_eq_true in H as [[[y' m'] d'] Hp].
    exists (String a s). split; [done|]. exists y', m', d'.
    split; [done|]. by apply strptime_valid in Hp.
Qed.

(** X21. Every request keeps the dates of the stored announcements
    well-formed: if each has an expiration date that parses to a date of the
    calendar and a start date that is null, the empty string, or parses to
    one, then so it is after any request and after any run of requests. *)
Theorem stored_dates_stay_valid
    (trace : list (datetime * ObjectId * request)) (db : Db) :
  Forall dates_ok (announcements_collection db) →
  Forall dates_ok (announcements_collection (run trace db)).
Proof.
  assert (∀ now new_id req db,
            Forall dates_ok (announcements_collection db) →
            Forall dates_ok
              (announcements_collection (router now new_id req db).2))
    as Hstep.
  { clear. intros now new_id req db Hdb.
    destruct req; unfold router; rewrite bind_ret_state.
    - by rewrite get_announcements_run.
    - by rewrite get_announcement_state.
    - destruct (create_announcement _ _ _ _ _ _ _) as [[record|e] db'] eqn:H.
      + apply create_announcement_success in H as (_ & Hd & _ & _ & _ & ->).
        cbn [snd announcements_collection].
        apply Forall_app. split; [done|]. apply Forall_singleton.
        by apply (dates_parse_ok _ _ _ Hd).
      + by apply create_announcement_raise in H as ->.
    - destruct (update_announcement _ _ _ _ _ _ _) as [[result|e] db'] eqn:H.
      + apply update_announcement_checked in H as Hc. destruct Hc as [_ Hd].
        apply update_announcement_success in H
          as (oid & pre & post & old & _ & _ & Hc & _ & -> & _).
        cbn [snd announcements_collection]. rewrite Hc in Hdb.
        apply Forall_app in Hdb as [Hpre [_ Hpost]%Forall_cons].
        apply Forall_app. split; [done|]. apply Forall_cons. split; [|done].
        apply (dates_parse_ok _ _ _ Hd); by apply lookup_union_Some_l.
      + by apply update_announcement_raise in H as ->.
    - destruct (delete_announcement_cases announcement_id teacher_username db)
        as [[e ->]|(oid & pre & post & d & _ & Hc & _ & _ & ->)]; [done|].
      cbn [snd announcements_collection]. rewrite Hc in Hdb.
      apply Forall_app in Hdb as [Hpre [_ Hpost]%Forall_cons].
      by apply Forall_app. }
  intros Hdb. induction trace as [|r trace IH] using rev_ind; [done|].
  rewrite run_snoc. by apply Hstep.
Qed.

Lemma stored_dates_stay_valid_witness :
  Forall dates_ok
    (announcements_collection
       (run [ (Example.clock, Example.oid1,
               CreateAnnouncement "Exam Friday" "2099-01-01" (Some "") "mchen") ]
            Example.empty_school)).
Proof.
  apply stored_dates_stay_valid. apply Forall_nil. exact I.
Defined.

(** ** A month written with one digit *)

Lemma match_month_digit (m : N) (rest : string) :
  (1 ≤ m)%N → (m ≤ 9)%N →
  match_month (String (digit m) (String "-" rest)) = Some (m, String "-" rest).
Proof.
  intros Hlo Hhi. pose proof (N_range_cases 1 m 9 Hlo ltac:(lia)) as Hm.
  cbn in Hm. rewrite !elem_of_cons, elem_of_nil in Hm.
  repeat (destruct Hm as [->|Hm]; [reflexivity|]). done.
Qed.

Lemma le_same_digit (a : N) (s t : string) :
  String.le (String (digit a) s) (String (digit a) t) ↔ String.le s t.
Proof. rewrite le_digit. split; [intros [?|[_ ?]]; [lia|done] | by right]. Qed.

(** X22. The writers accept a date whose month is written with one digit,
    but the listing compares it as text: such a string parses to its date,
    and yet, during the first nine months of its year, the active listing
    shows no record that has it as start date, whether or not that date
    has come. *)
Theorem unpadded_start_date_is_hidden (now : datetime) (db : Db)
    (l : list doc) (r : doc) (m d : N) :
  valid_date (year now) m d → (m ≤ 9)%N → (month now < 10)%N →
  (get_announcements now true db).1 = Return l →
  r ∈ l →
  strptime (unpadded_date_string (year now) m d) = Some (year now, m, d) ∧
  r !! "start_date" ≠ Some (VStr (unpadded_date_string (year now) m d)).
Proof.
  intros (Hy1 & Hy2 & Hm1 & _ & Hd1 & Hd2) Hm9 Hnow Hl Hr.
  pose proof (days_in_month_bound (year now) m). split.
  - unfold strptime, unpadded_date_string.
    rewrite match_year_pad4, expect_hyphen_hyphen by done.
    rewrite match_month_digit, expect_hyphen_hyphen by done.
    rewrite match_day_pad2 by lia.
    rewrite (proj2 (N.leb_le 1 (year now))), (proj2 (N.leb_le 1 d)),
      (proj2 (N.leb_le d _)) by done.
    done.
  - intros Hs.
    destruct (listed_record _ _ _ _ Hl Hr) as (a & _ & [_ Hstart] & ->).
    rewrite serialize_lookup_other in Hs by done. rewrite Hs in Hstart.
    revert Hstart.
    unfold unpadded_date_string, strftime, date_string, pad4, pad2.
    do 4 rewrite le_same_digit. rewrite le_hyphen, le_digit.
    rewrite (N.div_small (month now) 10) by lia.
    rewrite (N.mod_small m 10) by lia.
    change (0 mod 10)%N with 0%N. intros [?|[? _]]; lia.
Qed.

Lemma unpadded_start_date_is_hidden_witness :
  strptime "2024-3-01" = Some (2024, 3, 1)%N ∧
  serialize_announcement Example.notice !! "start_date"
  ≠ Some (VStr "2024-3-01").
Proof.
  refine (unpadded_start_date_is_hidden Example.clock Example.board
            [ serialize_announcement Example.notice;
              serialize_announcement Example.exam ]
            (serialize_announcement Example.notice) 3 1 _ _ _ _ _).
  - vm_compute. repeat split; discriminate.
  - vm_compute. discriminate.
  - vm_compute. reflexivity.
  - vm_compute. reflexivity.
  - apply list_elem_of_here.
Defined.
